(** * Network_SnifferX: the layered packet decoder

    A shallow embedding of [Network_SnifferX.py]: the five header decoders
    ([ethernet_frame], [ipv4_packet], [icmp_packet], [tcp_segment],
    [udp_segment]), the helpers they call, and the body of the capture loop
    of [main] that chains them.

    Python [bytes] values are lists of [byte]; Python integers are [Z];
    slices [data[:n]] and [data[n:]] are [firstn] and [skipn]; an exception
    raised by a call is the [Raise] branch of [result].  The loop body is
    given twice: as [one_frame], a function of the received buffer, and as
    [loop_body], which threads the local variables of [main] from one
    iteration to the next; the two are proved to show the same. *)

From Stdlib Require Import Bool String Ascii DecimalString ZArith List Lia.
From Stdlib.Strings Require Import Byte.
From Stdlib Require DecimalN DecimalPos.
Import ListNotations.
Open Scope Z_scope.

(** ** Bytes and exceptions *)

Definition bytes := list byte.

(** The integer a byte stands for when a [bytes] object is indexed or
    iterated. *)
Definition byte_val (b : byte) : Z := Z.of_N (Byte.to_N b).

(** The exceptions the decoders can raise. *)
Inductive exn :=
| struct_error   (* struct.error: unpack requires a buffer of n bytes *)
| IndexError     (* index out of range *)
| ValueError.    (* wrong number of values to unpack *)

Inductive result (E A : Type) :=
| OK (a : A)
| Raise (e : E).
Arguments OK {E A} a.
Arguments Raise {E A} e.

Definition bind {E A B} (r : result E A) (k : A -> result E B) : result E B :=
  match r with
  | OK a => k a
  | Raise e => Raise e
  end.

Declare Scope py_scope.
Delimit Scope py_scope with py.
Notation "x <- r ;; k" := (bind r (fun x => k))
  (at level 61, r at next level, right associativity) : py_scope.
Open Scope py_scope.

(** [data[i]] for a non-negative index. *)
Definition index (data : bytes) (i : nat) : result exn Z :=
  match nth_error data i with
  | Some b => OK (byte_val b)
  | None => Raise IndexError
  end.

(** ** The [struct] module, for formats in network byte order ([!]):
    standard sizes, no alignment. *)
Module struct.

Inductive code :=
| x (n : nat)    (* n pad bytes, no value *)
| B              (* unsigned char *)
| H              (* unsigned short *)
| L              (* unsigned long, 4 bytes *)
| s (n : nat).   (* n bytes, as a bytes object *)

Inductive value :=
| Int (z : Z)
| Bytes (b : bytes).

Definition size (c : code) : nat :=
  match c with
  | x n => n
  | B => 1
  | H => 2
  | L => 4
  | s n => n
  end.

Definition calcsize (fmt : list code) : nat :=
  fold_right (fun c acc => (size c + acc)%nat) 0%nat fmt.

(** Big-endian value of a run of bytes. *)
Definition be_int (bs : bytes) : Z :=
  fold_left (fun acc b => acc * 256 + byte_val b) bs 0.

Fixpoint fields (fmt : list code) (buf : bytes) : list value :=
  match fmt with
  | [] => []
  | c :: fmt' =>
      let here := firstn (size c) buf in
      let rest := skipn (size c) buf in
      match c with
      | x _ => fields fmt' rest
      | s _ => Bytes here :: fields fmt' rest
      | B | H | L => Int (be_int here) :: fields fmt' rest
      end
  end.

(** [struct.unpack(fmt, buf)]: the buffer must have exactly the size of
    the format. *)
Definition unpack (fmt : list code) (buf : bytes) : result exn (list value) :=
  if Nat.eqb (length buf) (calcsize fmt)
  then OK (fields fmt buf)
  else Raise struct_error.

End struct.
Import struct.

(** ** [socket.htons] *)

Inductive byte_order := LittleEndian | BigEndian.

(** Host-to-network conversion of a 16-bit value: a byte swap on a
    little-endian host, the identity on a big-endian one. *)
Definition htons (host : byte_order) (v : Z) : Z :=
  match host with
  | LittleEndian => Z.lor (Z.shiftl (Z.land v 255) 8) (Z.shiftr v 8)
  | BigEndian => v
  end.

(** ** String helpers *)

Definition hex_digit (n : Z) : ascii :=
  nth (Z.to_nat n) (list_ascii_of_string "0123456789abcdef") "0"%char.

(** ['{:02x}'.format(b)] *)
Definition format_02x (b : byte) : string :=
  String (hex_digit (byte_val b / 16))
    (String (hex_digit (byte_val b mod 16)) EmptyString).

Definition upper_ascii (c : ascii) : ascii :=
  let n := nat_of_ascii c in
  if (Nat.leb 97 n && Nat.leb n 122)%bool then ascii_of_nat (n - 32) else c.

(** [str.upper] *)
Fixpoint upper (str : string) : string :=
  match str with
  | EmptyString => EmptyString
  | String c rest => String (upper_ascii c) (upper rest)
  end.

(** [str(b)] for a byte value. *)
Definition str (b : byte) : string :=
  NilZero.string_of_uint (N.to_uint (Byte.to_N b)).

Definition get_mac_addr (bytes_addr : bytes) : string :=
  upper (String.concat ":" (map format_02x bytes_addr)).

Definition ipv4 (addr : bytes) : string :=
  String.concat "." (map str addr).

(** ** The decoders *)

Definition ethernet_frame (host : byte_order) (data : bytes)
  : result exn (string * string * Z * bytes) :=
  vals <- unpack [s 6; s 6; H] (firstn 14 data) ;;
  match vals with
  | [Bytes dest_mac; Bytes src_mac; Int proto] =>
      OK (get_mac_addr dest_mac, get_mac_addr src_mac, htons host proto,
          skipn 14 data)
  | _ => Raise ValueError
  end.

Definition ipv4_packet (data : bytes)
  : result exn (Z * Z * Z * Z * string * string * bytes) :=
  version_header_length <- index data 0 ;;
  let version := Z.shiftr version_header_length 4 in
  let header_length := Z.land version_header_length 15 * 4 in
  vals <- unpack [x 8; B; B; x 2; s 4; s 4] (firstn 20 data) ;;
  match vals with
  | [Int ttl; Int proto; Bytes src; Bytes target] =>
      OK (version, header_length, ttl, proto, ipv4 src, ipv4 target,
          skipn (Z.to_nat header_length) data)
  | _ => Raise ValueError
  end.

(** The [flags] dictionary of [tcp_segment]: its six keys, each an integer. *)
Record tcp_flags_t := Flags {
  URG : Z; ACK : Z; PSH : Z; RST : Z; SYN : Z; FIN : Z
}.

Definition tcp_flags (offset_reserved_flags : Z) : tcp_flags_t :=
  {| URG := Z.shiftr (Z.land offset_reserved_flags 32) 5;
     ACK := Z.shiftr (Z.land offset_reserved_flags 16) 4;
     PSH := Z.shiftr (Z.land offset_reserved_flags 8) 3;
     RST := Z.shiftr (Z.land offset_reserved_flags 4) 2;
     SYN := Z.shiftr (Z.land offset_reserved_flags 2) 1;
     FIN := Z.land offset_reserved_flags 1 |}.

Definition tcp_segment (data : bytes)
  : result exn (Z * Z * Z * Z * tcp_flags_t * bytes) :=
  vals <- unpack [H; H; L; L; H] (firstn 14 data) ;;
  match vals with
  | [Int src_port; Int dest_port; Int sequence; Int acknowledgment;
     Int offset_reserved_flags] =>
      let offset := Z.shiftr offset_reserved_flags 12 * 4 in
      let flags := tcp_flags offset_reserved_flags in
      OK (src_port, dest_port, sequence, acknowledgment, flags,
          skipn (Z.to_nat offset) data)
  | _ => Raise ValueError
  end.

Definition udp_segment (data : bytes) : result exn (Z * Z * Z * bytes) :=
  vals <- unpack [H; H; x 2; H] (firstn 8 data) ;;
  match vals with
  | [Int src_port; Int dest_port; Int size] =>
      OK (src_port, dest_port, size, skipn 8 data)
  | _ => Raise ValueError
  end.

Definition icmp_packet (data : bytes) : result exn (Z * Z * Z * bytes) :=
  vals <- unpack [B; B; H] (firstn 4 data) ;;
  match vals with
  | [Int icmp_type; Int code; Int checksum] =>
      OK (icmp_type, code, checksum, skipn 4 data)
  | _ => Raise ValueError
  end.

(** ** The capture loop of [main]

    One iteration of the loop takes the buffer returned by [recvfrom] and
    runs the decoders on it.  The iteration is recorded as the sequence of
    its observable steps: each entry into a decoder and each block of
    lines printed, with the values the lines are formatted from (their
    rendering by [format_multi_line] is display only).  An exception raised
    inside a decoder is not caught anywhere in [main]: it ends the
    iteration and the loop, and is reported with the decoder it was raised
    in, as the traceback does. *)

Inductive layer := Ethernet | IPv4 | ICMP | TCP | UDP.

Inductive event :=
| Call (l : layer)
| PrintEthernet (dest_mac src_mac : string) (eth_proto : Z)
| PrintIPv4 (version header_length ttl proto : Z) (src target : string)
| PrintICMP (icmp_type code checksum : Z) (data : bytes)
| PrintTCP (src_port dest_port sequence acknowledgment : Z)
    (flags : tcp_flags_t) (data : bytes)
| PrintUDP (src_port dest_port size : Z) (data : bytes)
| PrintOther (proto : Z) (data : bytes).

Record failure := Failure { raised_in : layer; raised : exn }.

(** Computations that log events and may stop on a failure. *)
Definition io (A : Type) : Type := list event * result failure A.

Definition ret {A} (a : A) : io A := ([], OK a).

Definition io_bind {A B} (m : io A) (k : A -> io B) : io B :=
  match m with
  | (t, OK a) => let (t', r) := k a in (t ++ t', r)
  | (t, Raise f) => (t, Raise f)
  end.

Definition call {A} (l : layer) (r : result exn A) : io A :=
  ([Call l],
   match r with
   | OK a => OK a
   | Raise e => Raise (Failure l e)
   end).

Definition print (e : event) : io unit := ([e], OK tt).

Declare Scope io_scope.
Delimit Scope io_scope with io.
Notation "m >> k" := (io_bind m (fun _ => k))
  (at level 61, right associativity) : io_scope.
Notation "' p <~ m ;; k" := (io_bind m (fun v => match v with p => k end))
  (at level 61, p pattern, m at next level, right associativity) : io_scope.

(** The body of the [while True] loop, for one received buffer. *)
Definition one_frame (host : byte_order) (raw_data : bytes) : io unit :=
  ('(dest_mac, src_mac, eth_proto, data) <~
     call Ethernet (ethernet_frame host raw_data) ;;
   print (PrintEthernet dest_mac src_mac eth_proto) >>
   if eth_proto =? 8 then
     '(version, header_length, ttl, proto, src, target, data) <~
        call IPv4 (ipv4_packet data) ;;
     print (PrintIPv4 version header_length ttl proto src target) >>
     if proto =? 1 then
       '(icmp_type, code, checksum, data) <~ call ICMP (icmp_packet data) ;;
       print (PrintICMP icmp_type code checksum data)
     else if proto =? 6 then
       '(src_port, dest_port, sequence, acknowledgment, flags, data) <~
          call TCP (tcp_segment data) ;;
       print (PrintTCP src_port dest_port sequence acknowledgment flags data)
     else if proto =? 17 then
       '(src_port, dest_port, size, data) <~ call UDP (udp_segment data) ;;
       print (PrintUDP src_port dest_port size data)
     else
       print (PrintOther proto data)
   else ret tt)%io.

(** The loop over the buffers the socket delivers, one outcome per
    iteration that runs: the loop goes on after an iteration that returns
    and ends with the first one that raises. *)
Fixpoint main_loop (host : byte_order) (frames : list bytes)
  : list (io unit) :=
  match frames with
  | [] => []
  | raw_data :: rest =>
      let outcome := one_frame host raw_data in
      match snd outcome with
      | OK _ => outcome :: main_loop host rest
      | Raise _ => [outcome]
      end
  end.

(** The events every iteration that decodes an IPv4 header starts with. *)
Definition ipv4_prefix (dest_mac src_mac : string)
  (version header_length ttl proto : Z) (src target : string) : list event :=
  [Call Ethernet; PrintEthernet dest_mac src_mac 8; Call IPv4;
   PrintIPv4 version header_length ttl proto src target].

(** The decoders entered during a run, in order. *)
Definition calls (t : list event) : list layer :=
  flat_map (fun e => match e with Call l => [l] | _ => [] end) t.

Definition layer_eq_dec (a b : layer) : {a = b} + {a <> b}.
Proof. decide equality. Defined.

(** The big-endian 16-bit integer at offsets [off] and [off + 1]. *)
Definition be16_at (data : bytes) (off : nat) : Z :=
  match nth_error data off, nth_error data (S off) with
  | Some hi, Some lo => byte_val hi * 256 + byte_val lo
  | _, _ => 0
  end.

(** Bytes from decimal values, for writing concrete buffers. *)
Definition byte_of (n : N) : byte :=
  match Byte.of_N n with
  | Some b => b
  | None => x00
  end.

Definition buffer (l : list N) : bytes := map byte_of l.

(** * Definitions used to state the properties *)

(** The buffer [data] with the two bytes at offsets 4 and 5 (the length
    field of a UDP header) replaced. *)
Definition with_length_field (b4 b5 : byte) (data : bytes) : bytes :=
  firstn 4 data ++ b4 :: b5 :: skipn 6 data.

(** A 22-byte frame with EtherType 0x0806 (ARP). *)
Definition arp_frame : bytes :=
  buffer [255; 255; 255; 255; 255; 255; 0; 17; 34; 51; 68; 85; 8; 6;
          0; 1; 8; 0; 6; 4; 0; 1]%N.

(** A UDP header whose length field (offsets 4-5) holds 8 and whose
    checksum field (offsets 6-7) holds 0xABCD. *)
Definition udp_header_len8 : bytes := buffer [0; 53; 0; 53; 0; 8; 171; 205]%N.

(** A UDP segment of 12 bytes: a header with length field 0x0000, then 4
    more bytes. *)
Definition udp_len0_segment : bytes :=
  buffer [0; 80; 1; 187; 0; 0; 0; 0; 1; 2; 3; 4]%N.

(** An Ethernet frame carrying an IPv4 packet with protocol 17 whose
    residual bytes are [udp_len0_segment]. *)
Definition udp_len0_frame : bytes :=
  buffer [255; 255; 255; 255; 255; 255; 0; 17; 34; 51; 68; 85; 8; 0;
          69; 0; 0; 32; 0; 0; 0; 0; 64; 17; 0; 0; 10; 0; 0; 1; 10; 0; 0; 2]%N
  ++ udp_len0_segment.

(** A 20-byte IPv4 header whose first byte is 0x40: version 4, header
    length nibble 0. *)
Definition nibble0_packet : bytes :=
  buffer [64; 0; 0; 20; 0; 0; 0; 0; 64; 6; 0; 0; 10; 0; 0; 1; 10; 0; 0; 2]%N.

(** The data offset [tcp_segment] derives from its input: 4 times the top
    four bits of the offset/flags word at offsets 12-13. *)
Definition tcp_data_offset (data : bytes) : Z :=
  Z.shiftr (be16_at data 12) 12 * 4.

(** A 14-byte TCP prefix whose offset/flags word is 0xF002: data offset 60,
    SYN set. *)
Definition offset60_segment : bytes :=
  buffer [0; 80; 1; 187; 0; 0; 0; 1; 0; 0; 0; 0; 240; 2]%N.

(** The six flags, the flag of bit [k] of the word at position [k]. *)
Definition flag_values (f : tcp_flags_t) : list Z :=
  [FIN f; SYN f; RST f; PSH f; ACK f; URG f].

(** How many of the six flags differ between two flag sets. *)
Definition flags_changed (f g : tcp_flags_t) : nat :=
  length (filter (fun p => negb (fst p =? snd p))
            (combine (flag_values f) (flag_values g))).

(** The word with bit [k] flipped. *)
Definition flip_bit (w k : Z) : Z := Z.lxor w (2 ^ k).

(** [transport proto data tail status]: the events and the status the
    dispatch on the IPv4 protocol number adds to an iteration. *)
Inductive transport (proto : Z) (data : bytes)
  : list event -> result failure unit -> Prop :=
| icmp_decoded icmp_type code checksum payload :
    proto = 1 ->
    icmp_packet data = OK (icmp_type, code, checksum, payload) ->
    transport proto data
      [Call ICMP; PrintICMP icmp_type code checksum payload] (OK tt)
| icmp_raises e :
    proto = 1 ->
    icmp_packet data = Raise e ->
    transport proto data [Call ICMP] (Raise (Failure ICMP e))
| tcp_decoded src_port dest_port sequence acknowledgment flags payload :
    proto = 6 ->
    tcp_segment data =
      OK (src_port, dest_port, sequence, acknowledgment, flags, payload) ->
    transport proto data
      [Call TCP;
       PrintTCP src_port dest_port sequence acknowledgment flags payload]
      (OK tt)
| tcp_raises e :
    proto = 6 ->
    tcp_segment data = Raise e ->
    transport proto data [Call TCP] (Raise (Failure TCP e))
| udp_decoded src_port dest_port size payload :
    proto = 17 ->
    udp_segment data = OK (src_port, dest_port, size, payload) ->
    transport proto data
      [Call UDP; PrintUDP src_port dest_port size payload] (OK tt)
| udp_raises e :
    proto = 17 ->
    udp_segment data = Raise e ->
    transport proto data [Call UDP] (Raise (Failure UDP e))
| other_protocol :
    proto <> 1 -> proto <> 6 -> proto <> 17 ->
    transport proto data [PrintOther proto data] (OK tt).

(** [outcome host raw events status]: the paths an iteration can take. *)
Inductive outcome (host : byte_order) (raw : bytes)
  : list event -> result failure unit -> Prop :=
| ethernet_raises e :
    ethernet_frame host raw = Raise e ->
    outcome host raw [Call Ethernet] (Raise (Failure Ethernet e))
| ether_type_other dest_mac src_mac eth_proto data :
    ethernet_frame host raw = OK (dest_mac, src_mac, eth_proto, data) ->
    eth_proto <> 8 ->
    outcome host raw
      [Call Ethernet; PrintEthernet dest_mac src_mac eth_proto] (OK tt)
| ipv4_raises dest_mac src_mac ip e :
    ethernet_frame host raw = OK (dest_mac, src_mac, 8, ip) ->
    ipv4_packet ip = Raise e ->
    outcome host raw
      [Call Ethernet; PrintEthernet dest_mac src_mac 8; Call IPv4]
      (Raise (Failure IPv4 e))
| ipv4_decoded dest_mac src_mac ip version header_length ttl proto src target
    data tail status :
    ethernet_frame host raw = OK (dest_mac, src_mac, 8, ip) ->
    ipv4_packet ip =
      OK (version, header_length, ttl, proto, src, target, data) ->
    transport proto data tail status ->
    outcome host raw
      (ipv4_prefix dest_mac src_mac version header_length ttl proto src target
         ++ tail)
      status.

(** The transport decoder the IPv4 protocol number selects, if any. *)
Definition transport_decoder (proto : Z) : list layer :=
  if proto =? 1 then [ICMP]
  else if proto =? 6 then [TCP]
  else if proto =? 17 then [UDP]
  else [].

(** A 54-byte frame: Ethernet with EtherType 0x0800, a 20-byte IPv4 header
    with protocol 6, a 20-byte TCP header with only SYN set. *)
Definition tcp_syn_frame : bytes :=
  buffer [255; 255; 255; 255; 255; 255; 0; 17; 34; 51; 68; 85; 8; 0;
          69; 0; 0; 40; 0; 0; 0; 0; 64; 6; 0; 0; 10; 0; 0; 1; 10; 0; 0; 2;
          0; 80; 1; 187; 0; 0; 0; 1; 0; 0; 0; 0; 80; 2; 0; 0; 0; 0; 0; 0]%N.

(** The number of bytes each decoder unpacks. *)
Definition min_len (l : layer) : nat :=
  match l with
  | Ethernet => 14
  | IPv4 => 20
  | ICMP => 4
  | TCP => 14
  | UDP => 8
  end.

(** Whether the decoder of layer [l] returns or raises on [data]. *)
Definition decoder_status (host : byte_order) (l : layer) (data : bytes)
  : result exn unit :=
  match l with
  | Ethernet => bind (ethernet_frame host data) (fun _ => OK tt)
  | IPv4 => bind (ipv4_packet data) (fun _ => OK tt)
  | ICMP => bind (icmp_packet data) (fun _ => OK tt)
  | TCP => bind (tcp_segment data) (fun _ => OK tt)
  | UDP => bind (udp_segment data) (fun _ => OK tt)
  end.

(** The bytes an iteration on [raw] hands to the decoder of layer [l]. *)
Definition handed_to (host : byte_order) (raw : bytes) (l : layer)
  (data : bytes) : Prop :=
  match l with
  | Ethernet => data = raw
  | IPv4 =>
      exists dest_mac src_mac,
        ethernet_frame host raw = OK (dest_mac, src_mac, 8, data)
  | ICMP | TCP | UDP =>
      exists dest_mac src_mac ip version header_length ttl proto src target,
        ethernet_frame host raw = OK (dest_mac, src_mac, 8, ip) /\
        ipv4_packet ip =
          OK (version, header_length, ttl, proto, src, target, data) /\
        transport_decoder proto = [l]
  end.

(** * The display helper [format_multi_line]

    [main] passes it the payload bytes of the layer it stopped at, so the
    argument is a [bytes] object and the [isinstance] branch is taken. *)

(** [text[:n]] and [text[n:]] on strings. *)
Fixpoint take (n : nat) (text : string) : string :=
  match n, text with
  | S n', String c rest => String c (take n' rest)
  | _, _ => EmptyString
  end.

Fixpoint drop (n : nat) (text : string) : string :=
  match n, text with
  | S n', String _ rest => drop n' rest
  | _, _ => text
  end.

(** The lines [textwrap.wrap] cuts a text into when the text holds no
    whitespace and no hyphen: the text is one chunk longer than the
    width, which [break_long_words] cuts after every [width] characters.
    The loop runs while text is left; [fuel] bounds its iterations. *)
Fixpoint wrap_chunks (fuel width : nat) (text : string) : list string :=
  match fuel with
  | O => []
  | S fuel' =>
      match text with
      | EmptyString => []
      | _ => take width text :: wrap_chunks fuel' width (drop width text)
      end
  end.

(** [textwrap.wrap(text, width)] on such a text: a width below 1 is
    refused with [ValueError], also for an empty text. *)
Definition wrap (text : string) (width : Z) : result exn (list string) :=
  if width <=? 0 then Raise ValueError
  else OK (wrap_chunks (String.length text) (Z.to_nat width) text).

Definition newline : string := String (ascii_of_nat 10) EmptyString.

(** [f'\\x{byte:02x}'] *)
Definition hex_escape (b : byte) : string :=
  String "\" (String "x" (format_02x b)).

(** The text [format_multi_line] wraps: the escapes of the bytes, joined. *)
Definition escaped (data : bytes) : string :=
  String.concat EmptyString (map hex_escape data).

(** The width [format_multi_line] wraps at: [size] less the prefix, made
    even. *)
Definition wrap_width (prefix : string) (size : Z) : Z :=
  let size := size - Z.of_nat (String.length prefix) in
  if size mod 2 =? 0 then size else size - 1.

(** The list the final [join] of [format_multi_line] is applied to. *)
Definition format_lines (prefix : string) (data : bytes) (size : Z)
  : result exn (list string) :=
  lines <- wrap (escaped data) (wrap_width prefix size) ;;
  OK (map (fun line => prefix ++ line)%string lines).

Definition format_multi_line (prefix : string) (data : bytes) (size : Z)
  : result exn string :=
  lines <- format_lines prefix data size ;;
  OK (String.concat newline lines).

(** The two prefixes [main] calls [format_multi_line] with. *)
Definition transport_data_prefix : string := "            Data: ".

Definition other_data_prefix : string := "        Data: ".

(** * Definitions used to state further properties *)

(** The big-endian 32-bit integer at offsets [off] to [off + 3]. *)
Definition be32_at (data : bytes) (off : nat) : Z :=
  match nth_error data off, nth_error data (S off),
        nth_error data (S (S off)), nth_error data (S (S (S off))) with
  | Some b0, Some b1, Some b2, Some b3 =>
      ((byte_val b0 * 256 + byte_val b1) * 256 + byte_val b2) * 256
      + byte_val b3
  | _, _, _, _ => 0
  end.

(** The value of an uppercase hexadecimal digit, 16 for any other
    character. *)
Definition hex_value (c : ascii) : Z :=
  match find (fun p => Ascii.eqb (fst p) c)
          (combine (list_ascii_of_string "0123456789ABCDEF")
             (map Z.of_nat (seq 0 16))) with
  | Some p => snd p
  | None => 16
  end.

Definition is_digit (c : ascii) : bool :=
  (Nat.leb 48 (nat_of_ascii c) && Nat.leb (nat_of_ascii c) 57)%bool.

Definition is_upper_hex (c : ascii) : bool :=
  (is_digit c
   || (Nat.leb 65 (nat_of_ascii c) && Nat.leb (nat_of_ascii c) 70))%bool.

(** Whether every character of a string passes a test. *)
Fixpoint all_chars (test : ascii -> bool) (text : string) : bool :=
  match text with
  | EmptyString => true
  | String c rest => (test c && all_chars test rest)%bool
  end.

(** An ICMP echo request of 8 bytes. *)
Definition icmp_echo : bytes := buffer [8; 0; 247; 255; 0; 1; 0; 1]%N.


(** An iteration that returns. *)
Definition returns (host : byte_order) (raw : bytes) : Prop :=
  snd (one_frame host raw) = OK tt.

(** The two characters [get_mac_addr] writes for a byte. *)
Definition mac_octet (b : byte) : string :=
  String (upper_ascii (hex_digit (byte_val b / 16)))
    (String (upper_ascii (hex_digit (byte_val b mod 16))) EmptyString).

(** A character of a hardware address: an uppercase hexadecimal digit or
    a colon. *)
Definition is_mac_char (c : ascii) : bool :=
  (is_upper_hex c || Ascii.eqb c ":")%bool.

(** A character of a dotted address: a decimal digit or a dot. *)
Definition is_dotted_char (c : ascii) : bool :=
  (is_digit c || Ascii.eqb c ".")%bool.

(** A 16-byte TCP segment whose offset/flags word is 0x0002: data offset
    0, SYN set. *)
Definition offset0_segment : bytes :=
  buffer [0; 80; 1; 187; 0; 0; 0; 1; 0; 0; 0; 0; 0; 2; 9; 9]%N.

(** * The local variables of [main]

    The values the loop body works with are local variables of [main]:
    they are assigned by the tuple assignments of the body and keep their
    values from one iteration to the next (a frame that is not IPv4 leaves
    [version], [proto], ... as an earlier frame set them).  [loop_body]
    is the body with these variables made explicit: every assignment
    writes the store of locals, every use of a name reads it, and reading
    a name that was never assigned is Python's [UnboundLocalError].  Each
    variable holds values of one type throughout [main], so the store has
    one map per type. *)

Inductive str_var := v_dest_mac | v_src_mac | v_src | v_target.

Inductive int_var :=
| v_eth_proto | v_version | v_header_length | v_ttl | v_proto
| v_icmp_type | v_code | v_checksum
| v_src_port | v_dest_port | v_sequence | v_acknowledgment | v_size.

Inductive bytes_var := v_raw_data | v_data.

Definition str_var_index (x : str_var) : nat :=
  match x with
  | v_dest_mac => 0 | v_src_mac => 1 | v_src => 2 | v_target => 3
  end.

Definition int_var_index (x : int_var) : nat :=
  match x with
  | v_eth_proto => 0 | v_version => 1 | v_header_length => 2 | v_ttl => 3
  | v_proto => 4 | v_icmp_type => 5 | v_code => 6 | v_checksum => 7
  | v_src_port => 8 | v_dest_port => 9 | v_sequence => 10
  | v_acknowledgment => 11 | v_size => 12
  end.

Definition bytes_var_index (x : bytes_var) : nat :=
  match x with
  | v_raw_data => 0 | v_data => 1
  end.

Record locals := Locals {
  strs : str_var -> option string;
  ints : int_var -> option Z;
  byts : bytes_var -> option bytes;
  flags_var : option tcp_flags_t
}.

(** The locals of [main] before the first iteration: nothing assigned. *)
Definition no_locals : locals :=
  {| strs := fun _ => None; ints := fun _ => None; byts := fun _ => None;
     flags_var := None |}.

(** What ends a run of the body: an exception raised in a decoder, or the
    use of a name that holds no value. *)
Inductive fault :=
| Raised (f : failure)
| UnboundLocalError.

(** A piece of the body: from the locals before it to the events it logs,
    the locals after it and its result. *)
Definition step (A : Type) : Type :=
  locals -> list event * locals * result fault A.

Definition step_ret {A} (a : A) : step A := fun s => ([], s, OK a).

Definition step_bind {A B} (m : step A) (k : A -> step B) : step B :=
  fun s =>
    match m s with
    | (t, s', OK a) =>
        match k a s' with
        | (t', s'', r) => (t ++ t', s'', r)
        end
    | (t, s', Raise f) => (t, s', Raise f)
    end.

Definition get_str (x : str_var) : step string :=
  fun s =>
    match strs s x with
    | Some v => ([], s, OK v)
    | None => ([], s, Raise UnboundLocalError)
    end.

Definition get_int (x : int_var) : step Z :=
  fun s =>
    match ints s x with
    | Some v => ([], s, OK v)
    | None => ([], s, Raise UnboundLocalError)
    end.

Definition get_bytes (x : bytes_var) : step bytes :=
  fun s =>
    match byts s x with
    | Some v => ([], s, OK v)
    | None => ([], s, Raise UnboundLocalError)
    end.

Definition get_flags : step tcp_flags_t :=
  fun s =>
    match flags_var s with
    | Some v => ([], s, OK v)
    | None => ([], s, Raise UnboundLocalError)
    end.

Definition set_str (x : str_var) (v : string) : step unit :=
  fun s =>
    ([],
     {| strs := fun y =>
          if Nat.eqb (str_var_index x) (str_var_index y) then Some v
          else strs s y;
        ints := ints s; byts := byts s; flags_var := flags_var s |},
     OK tt).

Definition set_int (x : int_var) (v : Z) : step unit :=
  fun s =>
    ([],
     {| strs := strs s;
        ints := fun y =>
          if Nat.eqb (int_var_index x) (int_var_index y) then Some v
          else ints s y;
        byts := byts s; flags_var := flags_var s |},
     OK tt).

Definition set_bytes (x : bytes_var) (v : bytes) : step unit :=
  fun s =>
    ([],
     {| strs := strs s; ints := ints s;
        byts := fun y =>
          if Nat.eqb (bytes_var_index x) (bytes_var_index y) then Some v
          else byts s y;
        flags_var := flags_var s |},
     OK tt).

Definition set_flags (v : tcp_flags_t) : step unit :=
  fun s =>
    ([],
     {| strs := strs s; ints := ints s; byts := byts s;
        flags_var := Some v |},
     OK tt).

(** A call of a decoder: entered, and its exception, if any, ends the
    body. *)
Definition step_call {A} (l : layer) (r : result exn A) : step A :=
  fun s =>
    ([Call l], s,
     match r with
     | OK a => OK a
     | Raise e => Raise (Raised (Failure l e))
     end).

Definition step_print (e : event) : step unit := fun s => ([e], s, OK tt).

Declare Scope step_scope.
Delimit Scope step_scope with step.
Notation "x <- m ;; k" := (step_bind m (fun x => k))
  (at level 61, m at next level, right associativity) : step_scope.
Notation "m >> k" := (step_bind m (fun _ => k))
  (at level 61, right associativity) : step_scope.
Notation "' p <~ m ;; k" := (step_bind m (fun v => match v with p => k end))
  (at level 61, p pattern, m at next level, right associativity) : step_scope.

(** The body of the [while True] loop on the locals of [main], for the
    buffer [frame] that [recvfrom] returns ([addr], assigned with
    [raw_data], is never used). *)
Definition loop_body (host : byte_order) (frame : bytes) : step unit :=
  (set_bytes v_raw_data frame >>
   raw_data <- get_bytes v_raw_data ;;
   '(dest_mac, src_mac, eth_proto, data) <~
      step_call Ethernet (ethernet_frame host raw_data) ;;
   set_str v_dest_mac dest_mac >> set_str v_src_mac src_mac >>
   set_int v_eth_proto eth_proto >> set_bytes v_data data >>
   dest_mac <- get_str v_dest_mac ;;
   src_mac <- get_str v_src_mac ;;
   eth_proto <- get_int v_eth_proto ;;
   step_print (PrintEthernet dest_mac src_mac eth_proto) >>
   eth_proto <- get_int v_eth_proto ;;
   if eth_proto =? 8 then
     data <- get_bytes v_data ;;
     '(version, header_length, ttl, proto, src, target, data) <~
        step_call IPv4 (ipv4_packet data) ;;
     set_int v_version version >> set_int v_header_length header_length >>
     set_int v_ttl ttl >> set_int v_proto proto >>
     set_str v_src src >> set_str v_target target >> set_bytes v_data data >>
     version <- get_int v_version ;;
     header_length <- get_int v_header_length ;;
     ttl <- get_int v_ttl ;;
     proto <- get_int v_proto ;;
     src <- get_str v_src ;;
     target <- get_str v_target ;;
     step_print (PrintIPv4 version header_length ttl proto src target) >>
     proto <- get_int v_proto ;;
     if proto =? 1 then
       data <- get_bytes v_data ;;
       '(icmp_type, code, checksum, data) <~
          step_call ICMP (icmp_packet data) ;;
       set_int v_icmp_type icmp_type >> set_int v_code code >>
       set_int v_checksum checksum >> set_bytes v_data data >>
       icmp_type <- get_int v_icmp_type ;;
       code <- get_int v_code ;;
       checksum <- get_int v_checksum ;;
       data <- get_bytes v_data ;;
       step_print (PrintICMP icmp_type code checksum data)
     else
       proto <- get_int v_proto ;;
       if proto =? 6 then
         data <- get_bytes v_data ;;
         '(src_port, dest_port, sequence, acknowledgment, flags, data) <~
            step_call TCP (tcp_segment data) ;;
         set_int v_src_port src_port >> set_int v_dest_port dest_port >>
         set_int v_sequence sequence >>
         set_int v_acknowledgment acknowledgment >>
         set_flags flags >> set_bytes v_data data >>
         src_port <- get_int v_src_port ;;
         dest_port <- get_int v_dest_port ;;
         sequence <- get_int v_sequence ;;
         acknowledgment <- get_int v_acknowledgment ;;
         flags <- get_flags ;;
         data <- get_bytes v_data ;;
         step_print
           (PrintTCP src_port dest_port sequence acknowledgment flags data)
       else
         proto <- get_int v_proto ;;
         if proto =? 17 then
           data <- get_bytes v_data ;;
           '(src_port, dest_port, size, data) <~
              step_call UDP (udp_segment data) ;;
           set_int v_src_port src_port >> set_int v_dest_port dest_port >>
           set_int v_size size >> set_bytes v_data data >>
           src_port <- get_int v_src_port ;;
           dest_port <- get_int v_dest_port ;;
           size <- get_int v_size ;;
           data <- get_bytes v_data ;;
           step_print (PrintUDP src_port dest_port size data)
         else
           proto <- get_int v_proto ;;
           data <- get_bytes v_data ;;
           step_print (PrintOther proto data)
   else step_ret tt)%step.

(** What a run of the body shows: the events and how it ended. *)
Definition observed (run : list event * locals * result fault unit)
  : list event * result fault unit :=
  (fst (fst run), snd run).

(** The locals a run of the body leaves. *)
Definition locals_after (run : list event * locals * result fault unit)
  : locals :=
  snd (fst run).

(** [main]'s loop on its locals: each iteration starts from the locals
    the one before left; the first iteration that raises ends the loop. *)
Fixpoint capture_loop (host : byte_order) (s : locals) (frames : list bytes)
  : list (list event * result fault unit) :=
  match frames with
  | [] => []
  | frame :: rest =>
      let run := loop_body host frame s in
      match snd run with
      | OK _ => observed run :: capture_loop host (locals_after run) rest
      | Raise _ => [observed run]
      end
  end.

(** An iteration of [one_frame] as a run of the body shows it. *)
Definition shown (o : io unit) : list event * result fault unit :=
  (fst o,
   match snd o with
   | OK a => OK a
   | Raise f => Raise (Raised f)
   end).

(** The locals a TCP frame leaves: [proto] is 6 and stays so while an ARP
    frame is dissected. *)
Definition locals_after_tcp : locals :=
  locals_after (loop_body LittleEndian tcp_syn_frame no_locals).

(** * Properties *)

(** ** Bytes and [struct.unpack] *)

Lemma byte_val_range (b : byte) : 0 <= byte_val b < 256.
Proof.
  unfold byte_val. pose proof (Byte.to_N_bounded b). lia.
Qed.

Lemma byte_val_inj (a b : byte) : byte_val a = byte_val b -> a = b.
Proof.
  unfold byte_val. intros E. apply N2Z.inj in E.
  pose proof (Byte.of_to_N a) as Ha. pose proof (Byte.of_to_N b) as Hb.
  rewrite E in Ha. congruence.
Qed.

Lemma unpack_wrong_size (fmt : list code) (buf : bytes) :
  length buf <> calcsize fmt -> unpack fmt buf = Raise struct_error.
Proof.
  intros Hne. unfold unpack.
  destruct (Nat.eqb_spec (length buf) (calcsize fmt));
    [contradiction | reflexivity].
Qed.

Lemma unpack_prefix_short (fmt : list code) (data : bytes) :
  (length data < calcsize fmt)%nat ->
  unpack fmt (firstn (calcsize fmt) data) = Raise struct_error.
Proof.
  intros Hlt. apply unpack_wrong_size. rewrite length_firstn. lia.
Qed.

(** Name the first bytes of a buffer known to be long enough. *)
Ltac open_buffer data Hlen :=
  repeat (destruct data as [| ? data]; [simpl in Hlen; lia |]).

(** ** Short inputs: each decoder raises [struct.error] *)

Lemma ethernet_frame_short host data :
  (length data < 14)%nat -> ethernet_frame host data = Raise struct_error.
Proof.
  intros Hlt. unfold ethernet_frame.
  rewrite (unpack_prefix_short [s 6; s 6; H]) by exact Hlt. reflexivity.
Qed.

Lemma ipv4_packet_short data :
  (0 < length data < 20)%nat -> ipv4_packet data = Raise struct_error.
Proof.
  intros [Hpos Hlt]. unfold ipv4_packet.
  destruct data as [| b0 data]; [simpl in Hpos; lia |].
  unfold index; simpl nth_error; cbv beta iota delta [bind].
  rewrite (unpack_prefix_short [x 8; B; B; x 2; s 4; s 4]) by exact Hlt.
  reflexivity.
Qed.

Lemma ipv4_packet_empty : ipv4_packet [] = Raise IndexError.
Proof. reflexivity. Qed.

Lemma tcp_segment_short data :
  (length data < 14)%nat -> tcp_segment data = Raise struct_error.
Proof.
  intros Hlt. unfold tcp_segment.
  rewrite (unpack_prefix_short [H; H; L; L; H]) by exact Hlt. reflexivity.
Qed.

Lemma udp_segment_short data :
  (length data < 8)%nat -> udp_segment data = Raise struct_error.
Proof.
  intros Hlt. unfold udp_segment.
  rewrite (unpack_prefix_short [H; H; x 2; H]) by exact Hlt. reflexivity.
Qed.

Lemma icmp_packet_short data :
  (length data < 4)%nat -> icmp_packet data = Raise struct_error.
Proof.
  intros Hlt. unfold icmp_packet.
  rewrite (unpack_prefix_short [B; B; H]) by exact Hlt. reflexivity.
Qed.

(** ** Long enough inputs: what each decoder returns *)

Lemma ethernet_frame_ok host data :
  (14 <= length data)%nat ->
  ethernet_frame host data =
    OK (get_mac_addr (firstn 6 data),
        get_mac_addr (firstn 6 (skipn 6 data)),
        htons host (be16_at data 12),
        skipn 14 data).
Proof.
  intros Hlen. open_buffer data Hlen. reflexivity.
Qed.

Lemma ipv4_packet_ok data :
  (20 <= length data)%nat ->
  exists b0 ttl proto,
    nth_error data 0 = Some b0 /\
    nth_error data 8 = Some ttl /\
    nth_error data 9 = Some proto /\
    ipv4_packet data =
      OK (Z.shiftr (byte_val b0) 4,
          Z.land (byte_val b0) 15 * 4,
          byte_val ttl,
          byte_val proto,
          ipv4 (firstn 4 (skipn 12 data)),
          ipv4 (firstn 4 (skipn 16 data)),
          skipn (Z.to_nat (Z.land (byte_val b0) 15 * 4)) data).
Proof.
  intros Hlen. open_buffer data Hlen.
  do 3 eexists. repeat split.
Qed.

Lemma tcp_segment_ok data :
  (14 <= length data)%nat ->
  exists sequence acknowledgment,
    tcp_segment data =
      OK (be16_at data 0, be16_at data 2, sequence, acknowledgment,
          tcp_flags (be16_at data 12),
          skipn (Z.to_nat (Z.shiftr (be16_at data 12) 12 * 4)) data).
Proof.
  intros Hlen. open_buffer data Hlen.
  do 2 eexists. reflexivity.
Qed.

Lemma udp_segment_ok data :
  (8 <= length data)%nat ->
  udp_segment data =
    OK (be16_at data 0, be16_at data 2, be16_at data 6, skipn 8 data).
Proof.
  intros Hlen. open_buffer data Hlen. reflexivity.
Qed.

Lemma icmp_packet_ok data :
  (4 <= length data)%nat ->
  exists icmp_type code,
    nth_error data 0 = Some icmp_type /\
    nth_error data 1 = Some code /\
    icmp_packet data =
      OK (byte_val icmp_type, byte_val code, be16_at data 2, skipn 4 data).
Proof.
  intros Hlen. open_buffer data Hlen.
  do 2 eexists. repeat split.
Qed.

Lemma udp_segment_with_length_field b4 b5 data :
  (8 <= length data)%nat ->
  udp_segment (with_length_field b4 b5 data) = udp_segment data.
Proof.
  intros Hlen. open_buffer data Hlen. reflexivity.
Qed.

(** ** One iteration of the loop, stage by stage *)

Ltac run_frame :=
  unfold one_frame, io_bind, call, print, ret;
  repeat match goal with
         | H : ethernet_frame _ _ = _ |- _ => rewrite H
         | H : ipv4_packet _ = _ |- _ => rewrite H
         end;
  cbn [app fst snd Z.eqb Pos.eqb].

Lemma one_frame_ethernet_raises host raw e :
  ethernet_frame host raw = Raise e ->
  one_frame host raw = ([Call Ethernet], Raise (Failure Ethernet e)).
Proof. intros He. run_frame. reflexivity. Qed.

Lemma one_frame_other_ether_type host raw dest_mac src_mac eth_proto data :
  ethernet_frame host raw = OK (dest_mac, src_mac, eth_proto, data) ->
  eth_proto <> 8 ->
  one_frame host raw =
    ([Call Ethernet; PrintEthernet dest_mac src_mac eth_proto], OK tt).
Proof.
  intros He Hne. run_frame.
  destruct (Z.eqb_spec eth_proto 8); [contradiction | reflexivity].
Qed.

Section IPv4Frame.

Variables (host : byte_order) (raw : bytes).
Variables (dest_mac src_mac : string) (ip : bytes).
Hypothesis Heth : ethernet_frame host raw = OK (dest_mac, src_mac, 8, ip).

Lemma one_frame_ipv4_raises e :
  ipv4_packet ip = Raise e ->
  one_frame host raw =
    ([Call Ethernet; PrintEthernet dest_mac src_mac 8; Call IPv4],
     Raise (Failure IPv4 e)).
Proof. intros Hip. run_frame. reflexivity. Qed.

Variables (version header_length ttl proto : Z) (src target : string).
Variable data : bytes.
Hypothesis Hip :
  ipv4_packet ip =
    OK (version, header_length, ttl, proto, src, target, data).

Local Abbreviation ipv4_prefix :=
  (ipv4_prefix dest_mac src_mac version header_length ttl proto src target).

Lemma one_frame_icmp :
  proto = 1 ->
  one_frame host raw =
    match icmp_packet data with
    | OK (icmp_type, code, checksum, payload) =>
        (ipv4_prefix ++
           [Call ICMP; PrintICMP icmp_type code checksum payload], OK tt)
    | Raise e => (ipv4_prefix ++ [Call ICMP], Raise (Failure ICMP e))
    end.
Proof.
  intros Hp. run_frame.
  destruct (Z.eqb_spec proto 1); [| contradiction].
  destruct (icmp_packet data) as [[[[? ?] ?] ?] | ?]; reflexivity.
Qed.

Lemma one_frame_tcp :
  proto = 6 ->
  one_frame host raw =
    match tcp_segment data with
    | OK (src_port, dest_port, sequence, acknowledgment, flags, payload) =>
        (ipv4_prefix ++
           [Call TCP;
            PrintTCP src_port dest_port sequence acknowledgment flags
              payload], OK tt)
    | Raise e => (ipv4_prefix ++ [Call TCP], Raise (Failure TCP e))
    end.
Proof.
  intros Hp. run_frame.
  destruct (Z.eqb_spec proto 1); [lia |].
  destruct (Z.eqb_spec proto 6); [| contradiction].
  destruct (tcp_segment data) as [[[[[[? ?] ?] ?] ?] ?] | ?]; reflexivity.
Qed.

Lemma one_frame_udp :
  proto = 17 ->
  one_frame host raw =
    match udp_segment data with
    | OK (src_port, dest_port, size, payload) =>
        (ipv4_prefix ++ [Call UDP; PrintUDP src_port dest_port size payload],
         OK tt)
    | Raise e => (ipv4_prefix ++ [Call UDP], Raise (Failure UDP e))
    end.
Proof.
  intros Hp. run_frame.
  destruct (Z.eqb_spec proto 1); [lia |].
  destruct (Z.eqb_spec proto 6); [lia |].
  destruct (Z.eqb_spec proto 17); [| contradiction].
  destruct (udp_segment data) as [[[[? ?] ?] ?] | ?]; reflexivity.
Qed.

Lemma one_frame_other_protocol :
  proto <> 1 -> proto <> 6 -> proto <> 17 ->
  one_frame host raw = (ipv4_prefix ++ [PrintOther proto data], OK tt).
Proof.
  intros H1 H6 H17. run_frame.
  destruct (Z.eqb_spec proto 1); [contradiction |].
  destruct (Z.eqb_spec proto 6); [contradiction |].
  destruct (Z.eqb_spec proto 17); [contradiction |].
  reflexivity.
Qed.

End IPv4Frame.

(** ** Ethernet *)

(** C6. For every input of at least 14 bytes, [ethernet_frame] returns; the
    header values are read from the first 14 bytes only, the residual is the
    suffix of the input starting at offset 14, the input is the 14 header
    bytes followed by the residual, and the residual is 14 bytes shorter
    than the input. *)
Theorem ethernet_frame_consumes_14 (host : byte_order) (data : bytes) :
  (14 <= length data)%nat ->
  exists dest_mac src_mac eth_proto residual,
    ethernet_frame host data = OK (dest_mac, src_mac, eth_proto, residual) /\
    residual = skipn 14 data /\
    data = firstn 14 data ++ residual /\
    length residual = (length data - 14)%nat /\
    dest_mac = get_mac_addr (firstn 6 (firstn 14 data)) /\
    src_mac = get_mac_addr (firstn 6 (skipn 6 (firstn 14 data))) /\
    eth_proto = htons host (be16_at (firstn 14 data) 12).
Proof.
  intros Hlen.
  exists (get_mac_addr (firstn 6 data)),
    (get_mac_addr (firstn 6 (skipn 6 data))),
    (htons host (be16_at data 12)), (skipn 14 data).
  split; [apply ethernet_frame_ok; exact Hlen |].
  split; [reflexivity |].
  split; [symmetry; apply firstn_skipn |].
  split; [apply length_skipn |].
  open_buffer data Hlen. repeat split.
Qed.

Lemma ethernet_frame_consumes_14_witness :
  exists dest_mac src_mac eth_proto residual,
    ethernet_frame LittleEndian arp_frame =
      OK (dest_mac, src_mac, eth_proto, residual) /\
    residual = skipn 14 arp_frame /\
    arp_frame = firstn 14 arp_frame ++ residual /\
    length residual = (length arp_frame - 14)%nat /\
    dest_mac = get_mac_addr (firstn 6 (firstn 14 arp_frame)) /\
    src_mac = get_mac_addr (firstn 6 (skipn 6 (firstn 14 arp_frame))) /\
    eth_proto = htons LittleEndian (be16_at (firstn 14 arp_frame) 12).
Proof.
  apply (ethernet_frame_consumes_14 LittleEndian arp_frame).
  vm_compute. lia.
Defined.

(** ** UDP *)

(** C1, as the code has it. For every input of at least 8 bytes the third
    value [udp_segment] returns, the one [main] prints as the length, is the
    big-endian integer at offsets 6-7 (the checksum field); offsets 4-5 (the
    length field) are the two pad bytes of the format: whatever they hold,
    the result is the same. *)
Theorem udp_segment_size_read_at_offset_6 (data : bytes) :
  (8 <= length data)%nat ->
  udp_segment data =
    OK (be16_at data 0, be16_at data 2, be16_at data 6, skipn 8 data) /\
  forall b4 b5, udp_segment (with_length_field b4 b5 data) = udp_segment data.
Proof.
  intros Hlen. split.
  - apply udp_segment_ok; exact Hlen.
  - intros b4 b5. apply udp_segment_with_length_field; exact Hlen.
Qed.

Lemma udp_segment_size_read_at_offset_6_witness :
  be16_at udp_header_len8 4 = 8 /\
  udp_segment udp_header_len8 = OK (53, 53, 43981, []).
Proof.
  split; [reflexivity |].
  destruct (udp_segment_size_read_at_offset_6 udp_header_len8) as [Hret _].
  - vm_compute. lia.
  - rewrite Hret. reflexivity.
Defined.

(** C7. For every UDP input that is decoded (at least 8 bytes), the payload
    is the input after its first 8 bytes, whatever the length field holds;
    and an iteration whose IPv4 packet has protocol 17 and at least 8
    residual bytes prints a UDP header and that payload. *)
Theorem udp_payload_ignores_declared_length (data : bytes) :
  (8 <= length data)%nat ->
  (exists src_port dest_port size,
     udp_segment data = OK (src_port, dest_port, size, skipn 8 data) /\
     forall b4 b5,
       udp_segment (with_length_field b4 b5 data) =
         OK (src_port, dest_port, size, skipn 8 data)) /\
  length (skipn 8 data) = (length data - 8)%nat /\
  (forall host raw dest_mac src_mac ip version header_length ttl src target,
     ethernet_frame host raw = OK (dest_mac, src_mac, 8, ip) ->
     ipv4_packet ip =
       OK (version, header_length, ttl, 17, src, target, data) ->
     exists events src_port dest_port size,
       one_frame host raw =
         (events ++ [Call UDP; PrintUDP src_port dest_port size (skipn 8 data)],
          OK tt)).
Proof.
  intros Hlen. split; [| split].
  - do 3 eexists. split.
    + apply udp_segment_ok; exact Hlen.
    + intros b4 b5. rewrite udp_segment_with_length_field by exact Hlen.
      apply udp_segment_ok; exact Hlen.
  - apply length_skipn.
  - intros host raw dest_mac src_mac ip version header_length ttl src target
      Heth Hip.
    rewrite (one_frame_udp _ _ _ _ _ Heth _ _ _ _ _ _ _ Hip eq_refl).
    rewrite (udp_segment_ok _ Hlen). do 4 eexists. reflexivity.
Qed.

Lemma udp_payload_ignores_declared_length_witness :
  be16_at udp_len0_segment 4 = 0 /\
  length udp_len0_segment = 12%nat /\
  length (skipn 8 udp_len0_segment) = 4%nat /\
  exists events src_port dest_port size,
    one_frame LittleEndian udp_len0_frame =
      (events ++
         [Call UDP; PrintUDP src_port dest_port size (buffer [1; 2; 3; 4]%N)],
       OK tt).
Proof.
  destruct (udp_payload_ignores_declared_length udp_len0_segment)
    as (_ & Hlen & Hframe).
  - vm_compute. lia.
  - split; [reflexivity |]. split; [reflexivity |]. split; [exact Hlen |].
    eapply (Hframe LittleEndian udp_len0_frame); reflexivity.
Defined.

(** ** IPv4 *)

Lemma low_nibble_range (v : Z) : 0 <= Z.land v 15 < 16.
Proof.
  change 15 with (Z.ones 4). rewrite Z.land_ones by lia.
  apply Z.mod_pos_bound. reflexivity.
Qed.

(** C2, the claim as stated fails: this 20-byte input is decoded and the
    header length returned is 0, which is below 20. *)
Lemma ipv4_header_length_below_20 :
  length nibble0_packet = 20%nat /\
  ipv4_packet nibble0_packet =
    OK (4, 0, 64, 6, "10.0.0.1"%string, "10.0.0.2"%string, nibble0_packet) /\
  ~ 20 <= 0.
Proof.
  split; [reflexivity |]. split; [reflexivity | lia].
Qed.

(** C2, amended. For every input of at least 20 bytes, the header length
    [ipv4_packet] returns is 4 times the low nibble of the first byte; it
    lies between 0 and 60, and is at least 20 exactly when the nibble is at
    least 5. *)
Theorem ipv4_header_length_is_4_times_nibble (data : bytes) :
  (20 <= length data)%nat ->
  exists b0 version header_length ttl proto src target payload,
    nth_error data 0 = Some b0 /\
    ipv4_packet data =
      OK (version, header_length, ttl, proto, src, target, payload) /\
    header_length = 4 * Z.land (byte_val b0) 15 /\
    0 <= header_length <= 60 /\
    (20 <= header_length <-> 5 <= Z.land (byte_val b0) 15).
Proof.
  intros Hlen.
  destruct (ipv4_packet_ok data Hlen) as (b0 & ttl & proto & H0 & _ & _ & Hret).
  exists b0. do 7 eexists.
  split; [exact H0 |]. split; [exact Hret |].
  pose proof (low_nibble_range (byte_val b0)). lia.
Qed.

Lemma ipv4_header_length_is_4_times_nibble_witness :
  exists b0 version header_length ttl proto src target payload,
    nth_error nibble0_packet 0 = Some b0 /\
    ipv4_packet nibble0_packet =
      OK (version, header_length, ttl, proto, src, target, payload) /\
    header_length = 4 * Z.land (byte_val b0) 15 /\
    0 <= header_length <= 60 /\
    (20 <= header_length <-> 5 <= Z.land (byte_val b0) 15).
Proof.
  apply (ipv4_header_length_is_4_times_nibble nibble0_packet).
  vm_compute. lia.
Defined.

(** C10. For every input of at least 20 bytes whose first byte has a low
    nibble below 5, [ipv4_packet] returns, with a header length below 20 and
    the payload starting at that offset: the payload is longer than the
    input without its 20 header bytes and contains the four bytes at
    offsets 16-19 that were also decoded as the target address.  With
    nibble 0 the payload is the whole input. *)
Theorem ipv4_short_header_payload_overlaps (data : bytes) (b0 : byte) :
  (20 <= length data)%nat ->
  nth_error data 0 = Some b0 ->
  Z.land (byte_val b0) 15 < 5 ->
  exists version header_length ttl proto src target payload,
    ipv4_packet data =
      OK (version, header_length, ttl, proto, src, target, payload) /\
    header_length = Z.land (byte_val b0) 15 * 4 /\
    header_length < 20 /\
    payload = skipn (Z.to_nat header_length) data /\
    (length data - 20 < length payload)%nat /\
    target = ipv4 (firstn 4 (skipn 16 data)) /\
    firstn 4 (skipn (16 - Z.to_nat header_length) payload) =
      firstn 4 (skipn 16 data) /\
    (Z.land (byte_val b0) 15 = 0 -> payload = data).
Proof.
  intros Hlen H0 Hnib.
  destruct (ipv4_packet_ok data Hlen) as (b & ttl & proto & Hb & _ & _ & Hret).
  rewrite H0 in Hb. injection Hb as <-.
  pose proof (low_nibble_range (byte_val b0)) as Hr.
  do 7 eexists.
  split; [exact Hret |]. split; [reflexivity |]. split; [lia |].
  split; [reflexivity |].
  split; [rewrite length_skipn; lia |].
  split; [reflexivity |].
  split.
  - rewrite skipn_skipn. f_equal. f_equal. lia.
  - intros ->. reflexivity.
Qed.

Lemma ipv4_short_header_payload_overlaps_witness :
  exists version header_length ttl proto src target payload,
    ipv4_packet nibble0_packet =
      OK (version, header_length, ttl, proto, src, target, payload) /\
    header_length = 0 /\
    payload = nibble0_packet.
Proof.
  destruct (ipv4_short_header_payload_overlaps nibble0_packet x40)
    as (version & header_length & ttl & proto & src & target & payload
        & Hret & Hhl & _ & _ & _ & _ & _ & Hall).
  - vm_compute. lia.
  - reflexivity.
  - vm_compute. reflexivity.
  - exists version, header_length, ttl, proto, src, target, payload.
    split; [exact Hret |]. split; [exact Hhl |]. apply Hall. reflexivity.
Defined.

(** ** TCP *)

(** C3, the claim as stated fails: the data offset of this input is 60, more
    than its 14 bytes, and [tcp_segment] returns, with an empty payload. *)
Lemma tcp_segment_offset_beyond_input_returns :
  length offset60_segment = 14%nat /\
  tcp_data_offset offset60_segment = 60 /\
  tcp_segment offset60_segment =
    OK (80, 443, 1, 0,
        {| URG := 0; ACK := 0; PSH := 0; RST := 0; SYN := 1; FIN := 0 |}, []).
Proof. repeat split. Qed.

(** C3, amended. [tcp_segment] raises [struct.error] when its input has
    fewer than 14 bytes.  When the input has at least 14 bytes and the
    derived data offset exceeds its length, it does not fail: it returns
    the header values and an empty payload. *)
Theorem tcp_segment_truncation (data : bytes) :
  ((length data < 14)%nat -> tcp_segment data = Raise struct_error) /\
  ((14 <= length data)%nat ->
   Z.of_nat (length data) < tcp_data_offset data ->
   exists src_port dest_port sequence acknowledgment flags,
     tcp_segment data =
       OK (src_port, dest_port, sequence, acknowledgment, flags, [])).
Proof.
  split.
  - apply tcp_segment_short.
  - intros Hlen Hoff.
    destruct (tcp_segment_ok data Hlen) as (sequence & acknowledgment & Hret).
    rewrite Hret. do 5 eexists. f_equal. f_equal.
    apply skipn_all2. unfold tcp_data_offset in Hoff. lia.
Qed.

Lemma tcp_segment_truncation_witness :
  tcp_segment (firstn 13 offset60_segment) = Raise struct_error /\
  exists src_port dest_port sequence acknowledgment flags,
    tcp_segment offset60_segment =
      OK (src_port, dest_port, sequence, acknowledgment, flags, []).
Proof.
  split.
  - apply (tcp_segment_truncation (firstn 13 offset60_segment)).
    vm_compute. lia.
  - apply (tcp_segment_truncation offset60_segment).
    + vm_compute. lia.
    + vm_compute. reflexivity.
Defined.

(** *** Flags *)

Lemma mask_test (w k : Z) :
  0 <= k -> Z.shiftr (Z.land w (2 ^ k)) k = Z.b2z (Z.testbit w k).
Proof.
  intros Hk.
  rewrite Z.shiftr_land.
  replace (Z.shiftr (2 ^ k) k) with (Z.ones 1)
    by (rewrite Z.shiftr_div_pow2, Z.div_same by lia; reflexivity).
  rewrite Z.land_ones by lia. change (2 ^ 1) with 2.
  rewrite <- Z.bit0_mod, Z.shiftr_spec by lia. reflexivity.
Qed.

Lemma tcp_flags_testbit (w : Z) :
  tcp_flags w =
    {| URG := Z.b2z (Z.testbit w 5);
       ACK := Z.b2z (Z.testbit w 4);
       PSH := Z.b2z (Z.testbit w 3);
       RST := Z.b2z (Z.testbit w 2);
       SYN := Z.b2z (Z.testbit w 1);
       FIN := Z.b2z (Z.testbit w 0) |}.
Proof.
  unfold tcp_flags.
  rewrite <- (mask_test w 5), <- (mask_test w 4), <- (mask_test w 3),
    <- (mask_test w 2), <- (mask_test w 1), <- (mask_test w 0) by lia.
  rewrite (Z.shiftr_0_r (Z.land w (2 ^ 0))). reflexivity.
Qed.

Lemma flip_bit_testbit (w k j : Z) :
  0 <= k -> 0 <= j ->
  Z.testbit (flip_bit w k) j = xorb (Z.testbit w j) (k =? j).
Proof.
  intros Hk Hj. unfold flip_bit.
  rewrite Z.lxor_spec, Z.pow2_bits_eqb by lia. reflexivity.
Qed.

Lemma flags_after_flip (w k : Z) :
  0 <= k ->
  tcp_flags (flip_bit w k) =
    {| URG := Z.b2z (xorb (Z.testbit w 5) (k =? 5));
       ACK := Z.b2z (xorb (Z.testbit w 4) (k =? 4));
       PSH := Z.b2z (xorb (Z.testbit w 3) (k =? 3));
       RST := Z.b2z (xorb (Z.testbit w 2) (k =? 2));
       SYN := Z.b2z (xorb (Z.testbit w 1) (k =? 1));
       FIN := Z.b2z (xorb (Z.testbit w 0) (k =? 0)) |}.
Proof.
  intros Hk. rewrite tcp_flags_testbit.
  rewrite !flip_bit_testbit by lia. reflexivity.
Qed.

Ltac split_flag_bits w :=
  destruct (Z.testbit w 5), (Z.testbit w 4), (Z.testbit w 3),
    (Z.testbit w 2), (Z.testbit w 1), (Z.testbit w 0).

Lemma flags_changed_by_flip (w k : Z) :
  0 <= k ->
  flags_changed (tcp_flags w) (tcp_flags (flip_bit w k)) =
    if k <? 6 then 1%nat else 0%nat.
Proof.
  intros Hk. rewrite flags_after_flip by exact Hk. rewrite tcp_flags_testbit.
  assert (Hcases : k = 0 \/ k = 1 \/ k = 2 \/ k = 3 \/ k = 4 \/ k = 5 \/ 6 <= k)
    by lia.
  destruct Hcases as [-> | [-> | [-> | [-> | [-> | [-> | Hhigh]]]]]];
    try (split_flag_bits w; reflexivity).
  destruct (Z.ltb_spec k 6); [lia |].
  repeat match goal with
         | |- context [k =? ?j] =>
             destruct (Z.eqb_spec k j); [lia |]
         end.
  split_flag_bits w; reflexivity.
Qed.

Lemma flag_toggled_by_flip (w k : Z) :
  0 <= k < 6 ->
  nth (Z.to_nat k) (flag_values (tcp_flags (flip_bit w k))) 0 =
    1 - nth (Z.to_nat k) (flag_values (tcp_flags w)) 0.
Proof.
  intros Hk. rewrite flags_after_flip by lia. rewrite tcp_flags_testbit.
  assert (Hcases : k = 0 \/ k = 1 \/ k = 2 \/ k = 3 \/ k = 4 \/ k = 5) by lia.
  destruct Hcases as [-> | [-> | [-> | [-> | [-> | ->]]]]];
    split_flag_bits w; reflexivity.
Qed.

(** C4, the claim as stated fails: flipping bit 6 of the word 0x0000 gives
    0x0040, whose six flags are those of 0x0000: no flag changes. *)
Lemma flipping_bit_6_changes_no_flag :
  flip_bit 0 6 = 64 /\
  tcp_flags (flip_bit 0 6) = tcp_flags 0 /\
  flags_changed (tcp_flags 0) (tcp_flags (flip_bit 0 6)) = 0%nat.
Proof. repeat split. Qed.

(** C4, amended. The flags [tcp_segment] returns are [tcp_flags] of the
    word at offsets 12-13; for every word each of URG, ACK, PSH, RST, SYN,
    FIN is the test of the single bit 5, 4, 3, 2, 1, 0 of the word.
    Flipping one of the bits 0-5 changes exactly one flag, the one of that
    bit; flipping one of the bits 6-15 changes no flag. *)
Theorem tcp_flags_bit_independent (w k : Z) :
  (forall data : bytes,
     (14 <= length data)%nat ->
     exists src_port dest_port sequence acknowledgment payload,
       tcp_segment data =
         OK (src_port, dest_port, sequence, acknowledgment,
             tcp_flags (be16_at data 12), payload)) /\
  (URG (tcp_flags w) = Z.b2z (Z.testbit w 5) /\
   ACK (tcp_flags w) = Z.b2z (Z.testbit w 4) /\
   PSH (tcp_flags w) = Z.b2z (Z.testbit w 3) /\
   RST (tcp_flags w) = Z.b2z (Z.testbit w 2) /\
   SYN (tcp_flags w) = Z.b2z (Z.testbit w 1) /\
   FIN (tcp_flags w) = Z.b2z (Z.testbit w 0)) /\
  (0 <= k < 16 ->
   flags_changed (tcp_flags w) (tcp_flags (flip_bit w k)) =
     (if k <? 6 then 1%nat else 0%nat) /\
   (k < 6 ->
    nth (Z.to_nat k) (flag_values (tcp_flags (flip_bit w k))) 0 =
      1 - nth (Z.to_nat k) (flag_values (tcp_flags w)) 0)).
Proof.
  split; [| split].
  - intros data Hlen.
    destruct (tcp_segment_ok data Hlen) as (sequence & acknowledgment & Hret).
    rewrite Hret. do 5 eexists. reflexivity.
  - rewrite tcp_flags_testbit. repeat split.
  - intros Hk. split.
    + apply flags_changed_by_flip. lia.
    + intros Hlow. apply flag_toggled_by_flip. lia.
Qed.

Lemma tcp_flags_bit_independent_witness :
  (exists src_port dest_port sequence acknowledgment payload,
     tcp_segment offset60_segment =
       OK (src_port, dest_port, sequence, acknowledgment,
           tcp_flags 61442, payload)) /\
  flags_changed (tcp_flags 61442) (tcp_flags (flip_bit 61442 1)) = 1%nat /\
  SYN (tcp_flags (flip_bit 61442 1)) = 1 - SYN (tcp_flags 61442) /\
  flags_changed (tcp_flags 61442) (tcp_flags (flip_bit 61442 12)) = 0%nat.
Proof.
  destruct (tcp_flags_bit_independent 61442 1) as (Hseg & _ & Hflip).
  destruct Hflip as [Hcount Htoggle]; [lia |].
  destruct (tcp_flags_bit_independent 61442 12) as (_ & _ & Hhigh).
  destruct Hhigh as [Hnone _]; [lia |].
  split; [apply (Hseg offset60_segment); vm_compute; lia |].
  split; [exact Hcount |].
  split; [apply Htoggle; lia | exact Hnone].
Defined.

(** ** The paths of one iteration *)

Lemma transport_total (proto : Z) (data : bytes) :
  exists tail status, transport proto data tail status.
Proof.
  destruct (Z.eq_dec proto 1) as [H1 | H1].
  { destruct (icmp_packet data) as [[[[? ?] ?] ?] | e] eqn:E;
      do 2 eexists; [eapply icmp_decoded | eapply icmp_raises]; eassumption. }
  destruct (Z.eq_dec proto 6) as [H6 | H6].
  { destruct (tcp_segment data) as [[[[[[? ?] ?] ?] ?] ?] | e] eqn:E;
      do 2 eexists; [eapply tcp_decoded | eapply tcp_raises]; eassumption. }
  destruct (Z.eq_dec proto 17) as [H17 | H17].
  { destruct (udp_segment data) as [[[[? ?] ?] ?] | e] eqn:E;
      do 2 eexists; [eapply udp_decoded | eapply udp_raises]; eassumption. }
  do 2 eexists. apply other_protocol; assumption.
Qed.

Lemma one_frame_transport host raw dest_mac src_mac ip version header_length
  ttl proto src target data tail status :
  ethernet_frame host raw = OK (dest_mac, src_mac, 8, ip) ->
  ipv4_packet ip = OK (version, header_length, ttl, proto, src, target, data) ->
  transport proto data tail status ->
  one_frame host raw =
    (ipv4_prefix dest_mac src_mac version header_length ttl proto src target
       ++ tail, status).
Proof.
  intros Heth Hip Ht.
  destruct Ht as [? ? ? ? Hp E | ? Hp E | ? ? ? ? ? ? Hp E | ? Hp E
                 | ? ? ? ? Hp E | ? Hp E | H1 H6 H17].
  - rewrite (one_frame_icmp _ _ _ _ _ Heth _ _ _ _ _ _ _ Hip Hp), E.
    reflexivity.
  - rewrite (one_frame_icmp _ _ _ _ _ Heth _ _ _ _ _ _ _ Hip Hp), E.
    reflexivity.
  - rewrite (one_frame_tcp _ _ _ _ _ Heth _ _ _ _ _ _ _ Hip Hp), E.
    reflexivity.
  - rewrite (one_frame_tcp _ _ _ _ _ Heth _ _ _ _ _ _ _ Hip Hp), E.
    reflexivity.
  - rewrite (one_frame_udp _ _ _ _ _ Heth _ _ _ _ _ _ _ Hip Hp), E.
    reflexivity.
  - rewrite (one_frame_udp _ _ _ _ _ Heth _ _ _ _ _ _ _ Hip Hp), E.
    reflexivity.
  - apply (one_frame_other_protocol _ _ _ _ _ Heth _ _ _ _ _ _ _ Hip);
      assumption.
Qed.

(** Every iteration takes one of the paths of [outcome]. *)
Lemma one_frame_outcome (host : byte_order) (raw : bytes) :
  outcome host raw (fst (one_frame host raw)) (snd (one_frame host raw)).
Proof.
  destruct (ethernet_frame host raw)
    as [[[[dest_mac src_mac] p] ip] | e] eqn:Heth.
  - destruct (Z.eq_dec p 8) as [-> | Hne].
    + destruct (ipv4_packet ip)
        as [[[[[[[version hl] ttl] proto] src] target] data] | e] eqn:Hip.
      * destruct (transport_total proto data) as (tail & status & Ht).
        rewrite (one_frame_transport _ _ _ _ _ _ _ _ _ _ _ _ _ _ Heth Hip Ht).
        eapply ipv4_decoded; eassumption.
      * rewrite (one_frame_ipv4_raises _ _ _ _ _ Heth _ Hip).
        eapply ipv4_raises; eassumption.
    + rewrite (one_frame_other_ether_type _ _ _ _ _ _ Heth Hne).
      eapply ether_type_other; eassumption.
  - rewrite (one_frame_ethernet_raises _ _ _ Heth).
    apply ethernet_raises; assumption.
Qed.

(** The paths are the iteration: an outcome is what [one_frame] computes. *)
Lemma outcome_one_frame host raw events status :
  outcome host raw events status -> one_frame host raw = (events, status).
Proof.
  intros [e He | ? ? ? ? He Hne | ? ? ? e He Hip
         | ? ? ? ? ? ? ? ? ? ? ? ? He Hip Ht].
  - apply one_frame_ethernet_raises; assumption.
  - apply one_frame_other_ether_type with (data := data); assumption.
  - eapply one_frame_ipv4_raises; eassumption.
  - eapply one_frame_transport; eassumption.
Qed.

(** ** The EtherType test of [main] *)

Lemma lor_disjoint_bytes (hi lo : Z) :
  0 <= hi < 256 -> 0 <= lo < 256 ->
  Z.lor (Z.shiftl lo 8) hi = lo * 256 + hi.
Proof.
  intros Hhi Hlo.
  assert (Hdisj : Z.land (Z.shiftl lo 8) hi = 0).
  { apply Z.bits_inj'. intros n Hn.
    rewrite Z.land_spec, Z.bits_0.
    destruct (Z.lt_ge_cases n 8) as [Hlow | Hhigh].
    - rewrite Z.shiftl_spec_low by lia. reflexivity.
    - rewrite <- (Z.mod_small hi (2 ^ 8)) by lia.
      rewrite Z.mod_pow2_bits_high by lia. apply andb_false_r. }
  rewrite <- Z.lxor_lor, <- Z.add_nocarry_lxor by exact Hdisj.
  rewrite Z.shiftl_mul_pow2 by lia. reflexivity.
Qed.

(** On a little-endian host [htons] swaps the two bytes of a 16-bit value. *)
Lemma htons_little_endian (hi lo : Z) :
  0 <= hi < 256 -> 0 <= lo < 256 ->
  htons LittleEndian (hi * 256 + lo) = lo * 256 + hi.
Proof.
  intros Hhi Hlo. unfold htons.
  change 255 with (Z.ones 8). rewrite Z.land_ones by lia.
  rewrite Z.shiftr_div_pow2 by lia. change (2 ^ 8) with 256.
  replace ((hi * 256 + lo) mod 256) with lo
    by (rewrite Z.add_comm, Z.mod_add, Z.mod_small by lia; reflexivity).
  replace ((hi * 256 + lo) / 256) with hi
    by (rewrite Z.add_comm, Z.div_add, Z.div_small by lia; reflexivity).
  apply lor_disjoint_bytes; assumption.
Qed.

(** The value [main] compares with 8 is 8 exactly for the EtherType bytes
    0x08 0x00. *)
Lemma ether_type_ipv4 (raw : bytes) :
  (14 <= length raw)%nat ->
  htons LittleEndian (be16_at raw 12) = 8 <->
  nth_error raw 12 = Some x08 /\ nth_error raw 13 = Some x00.
Proof.
  intros Hlen. open_buffer raw Hlen.
  unfold be16_at. cbn [nth_error].
  match goal with
  | |- htons _ (byte_val ?hi * 256 + byte_val ?lo) = 8 <-> _ =>
      pose proof (byte_val_range hi) as Hhi;
      pose proof (byte_val_range lo) as Hlo;
      rewrite (htons_little_endian _ _ Hhi Hlo);
      split;
      [ intros Hv;
        assert (E1 : byte_val hi = byte_val x08)
          by (change (byte_val x08) with 8; lia);
        assert (E2 : byte_val lo = byte_val x00)
          by (change (byte_val x00) with 0; lia);
        apply byte_val_inj in E1; apply byte_val_inj in E2; subst;
        split; reflexivity
      | intros [E1 E2]; injection E1 as ->; injection E2 as ->; reflexivity ]
  end.
Qed.

Lemma ether_type_big_endian (raw : bytes) :
  (14 <= length raw)%nat ->
  htons BigEndian (be16_at raw 12) = 8 <->
  nth_error raw 12 = Some x00 /\ nth_error raw 13 = Some x08.
Proof.
  intros Hlen. open_buffer raw Hlen.
  unfold be16_at. cbn [nth_error htons].
  match goal with
  | |- byte_val ?hi * 256 + byte_val ?lo = 8 <-> _ =>
      pose proof (byte_val_range hi) as Hhi;
      pose proof (byte_val_range lo) as Hlo;
      split;
      [ intros Hv;
        assert (E1 : byte_val hi = byte_val x00)
          by (change (byte_val x00) with 0; lia);
        assert (E2 : byte_val lo = byte_val x08)
          by (change (byte_val x08) with 8; lia);
        apply byte_val_inj in E1; apply byte_val_inj in E2; subst;
        split; reflexivity
      | intros [E1 E2]; injection E1 as ->; injection E2 as ->; reflexivity ]
  end.
Qed.

(** The EtherType bytes for which [main]'s test [eth_proto == 8] holds, on
    either host. *)
Lemma ether_type_test (host : byte_order) (raw : bytes) :
  (14 <= length raw)%nat ->
  htons host (be16_at raw 12) = 8 <->
  match host with
  | LittleEndian =>
      nth_error raw 12 = Some x08 /\ nth_error raw 13 = Some x00
  | BigEndian =>
      nth_error raw 12 = Some x00 /\ nth_error raw 13 = Some x08
  end.
Proof.
  intros Hlen. destruct host.
  - apply ether_type_ipv4. exact Hlen.
  - apply ether_type_big_endian. exact Hlen.
Qed.

Lemma ethernet_frame_returns host raw dest_mac src_mac eth_proto data :
  ethernet_frame host raw = OK (dest_mac, src_mac, eth_proto, data) ->
  (14 <= length raw)%nat /\
  eth_proto = htons host (be16_at raw 12) /\
  data = skipn 14 raw.
Proof.
  intros Hret. destruct (le_lt_dec 14 (length raw)) as [Hlen | Hshort].
  - rewrite (ethernet_frame_ok host raw Hlen) in Hret.
    injection Hret as _ _ <- <-. repeat split. exact Hlen.
  - rewrite (ethernet_frame_short host raw Hshort) in Hret. discriminate.
Qed.

Lemma ethernet_frame_raises host raw e :
  ethernet_frame host raw = Raise e ->
  (length raw < 14)%nat /\ e = struct_error.
Proof.
  intros Hret. destruct (le_lt_dec 14 (length raw)) as [Hlen | Hshort].
  - rewrite (ethernet_frame_ok host raw Hlen) in Hret. discriminate.
  - rewrite (ethernet_frame_short host raw Hshort) in Hret.
    injection Hret as <-. split; [exact Hshort | reflexivity].
Qed.

(** ** Dispatch *)

Lemma calls_app (t u : list event) : calls (t ++ u) = calls t ++ calls u.
Proof. apply flat_map_app. Qed.

Lemma transport_calls proto data tail status :
  transport proto data tail status ->
  calls tail = transport_decoder proto /\
  (transport_decoder proto = [] ->
   tail = [PrintOther proto data] /\ status = OK tt).
Proof.
  intros [? ? ? ? -> E | ? -> E | ? ? ? ? ? ? -> E | ? -> E
         | ? ? ? ? -> E | ? -> E | H1 H6 H17];
    try (split; [reflexivity | discriminate]).
  unfold transport_decoder.
  destruct (Z.eqb_spec proto 1); [contradiction |].
  destruct (Z.eqb_spec proto 6); [contradiction |].
  destruct (Z.eqb_spec proto 17); [contradiction |].
  repeat split.
Qed.

Lemma transport_decoder_not_lower (proto : Z) :
  ~ In Ethernet (transport_decoder proto) /\
  ~ In IPv4 (transport_decoder proto) /\
  (length (transport_decoder proto) <= 1)%nat.
Proof.
  unfold transport_decoder.
  destruct (proto =? 1); [| destruct (proto =? 6); [| destruct (proto =? 17)]];
    simpl; intuition (discriminate || lia).
Qed.

Lemma ipv4_packet_protocol_byte (ip : bytes)
  (version header_length ttl proto : Z) (src target : string)
  (data : bytes) :
  ipv4_packet ip =
    OK (version, header_length, ttl, proto, src, target, data) ->
  exists pb, nth_error ip 9 = Some pb /\ proto = byte_val pb.
Proof.
  intros Hret.
  destruct (le_lt_dec 20 (length ip)) as [Hlen | Hshort].
  - destruct (ipv4_packet_ok ip Hlen) as (b0 & b8 & b9 & _ & _ & H9 & Hok).
    rewrite Hok in Hret. injection Hret as _ _ _ Hp _ _ _.
    exists b9. split; [exact H9 | exact (eq_sym Hp)].
  - destruct ip as [| b ip]; [discriminate Hret |].
    rewrite ipv4_packet_short in Hret by (simpl in *; lia).
    discriminate Hret.
Qed.

(** C5, as the code has it. On either host one iteration enters
    [ethernet_frame] exactly once.  It enters [ipv4_packet] if and only if
    [htons] of the EtherType is 8: on a little-endian host exactly for the
    EtherType bytes 0x08 0x00, but on a big-endian host exactly for the
    bytes 0x00 0x08, so there a frame with EtherType 0x0800 is not decoded
    as IPv4.  Without [ipv4_packet] no other decoder is entered.
    When [ipv4_packet] returns, its protocol value is the byte at offset 23
    of the frame and the only further decoder entered is the one that value
    selects (1 ICMP, 6 TCP, 17 UDP); for any other value none is entered
    and the payload is printed as other protocol.  When [ipv4_packet]
    raises, no further decoder is entered. *)
Theorem dissector_dispatch (host : byte_order) (raw : bytes) :
  count_occ layer_eq_dec (calls (fst (one_frame host raw))) Ethernet
    = 1%nat /\
  (In IPv4 (calls (fst (one_frame host raw))) <->
   match host with
   | LittleEndian =>
       nth_error raw 12 = Some x08 /\ nth_error raw 13 = Some x00
   | BigEndian =>
       nth_error raw 12 = Some x00 /\ nth_error raw 13 = Some x08
   end) /\
  (~ In IPv4 (calls (fst (one_frame host raw))) ->
   calls (fst (one_frame host raw)) = [Ethernet]) /\
  (In IPv4 (calls (fst (one_frame host raw))) ->
   match ipv4_packet (skipn 14 raw) with
   | OK (_, _, _, proto, _, _, payload) =>
       (exists pb, nth_error raw 23 = Some pb /\ proto = byte_val pb) /\
       calls (fst (one_frame host raw)) =
         [Ethernet; IPv4] ++ transport_decoder proto /\
       (transport_decoder proto = [] ->
        last (fst (one_frame host raw)) (Call Ethernet) =
          PrintOther proto payload /\
        snd (one_frame host raw) = OK tt)
   | Raise e =>
       calls (fst (one_frame host raw)) = [Ethernet; IPv4] /\
       snd (one_frame host raw) = Raise (Failure IPv4 e)
   end).
Proof.
  pose proof (one_frame_outcome host raw) as Ho.
  destruct (one_frame host raw) as [events status].
  cbn [fst snd] in *.
  destruct Ho as [e He | dest_mac src_mac p data He Hne
                 | dest_mac src_mac ip e He Hip
                 | dest_mac src_mac ip version hl ttl proto src target data
                     tail status He Hip Ht].
  - (* the Ethernet decoder raises *)
    apply ethernet_frame_raises in He as [Hshort _].
    assert (Hnone : nth_error raw 13 = None) by (apply nth_error_None; lia).
    cbn [calls flat_map app].
    split; [reflexivity |].
    split; [split; [intros [H | []]; discriminate H
                   | destruct host; intros [_ H]; congruence] |].
    split; [intros _; reflexivity |].
    intros [H | []]; discriminate H.
  - (* another EtherType *)
    apply ethernet_frame_returns in He as (Hlen & Hp & _).
    assert (Hty : htons host (be16_at raw 12) <> 8) by congruence.
    rewrite (ether_type_test host raw Hlen) in Hty.
    cbn [calls flat_map app].
    split; [reflexivity |].
    split; [split; [intros [H | []]; discriminate H
                   | intros H; contradiction] |].
    split; [intros _; reflexivity |].
    intros [H | []]; discriminate H.
  - (* the EtherType test holds, and the IPv4 decoder raises *)
    apply ethernet_frame_returns in He as (Hlen & Hp & ->).
    symmetry in Hp. apply (ether_type_test host raw Hlen) in Hp.
    rewrite Hip. cbn [calls flat_map app].
    split; [reflexivity |].
    split; [split; [intros _; exact Hp
                   | intros _; right; left; reflexivity] |].
    split; [intros Hno; exfalso; apply Hno; right; left; reflexivity |].
    intros _. split; reflexivity.
  - (* IPv4 decoded, then the dispatch *)
    apply ethernet_frame_returns in He as (Hlen & Hp & ->).
    symmetry in Hp. apply (ether_type_test host raw Hlen) in Hp.
    destruct (transport_calls _ _ _ _ Ht) as [Hcalls Hother].
    destruct (transport_decoder_not_lower proto) as (HnoE & HnoI & _).
    destruct (ipv4_packet_protocol_byte _ _ _ _ _ _ _ _ Hip) as (pb & H9 & Hpb).
    rewrite nth_error_skipn in H9.
    rewrite Hip, calls_app, Hcalls. unfold ipv4_prefix.
    cbn [calls flat_map app].
    split.
    { cbn [count_occ].
      destruct (layer_eq_dec Ethernet Ethernet) as [_ | Hd]; [| contradiction].
      destruct (layer_eq_dec IPv4 Ethernet) as [Hd | _]; [discriminate |].
      f_equal. apply count_occ_not_In. exact HnoE. }
    split; [split; [intros _; exact Hp
                   | intros _; right; left; reflexivity] |].
    split; [intros Hno; exfalso; apply Hno; right; left; reflexivity |].
    intros _. split; [exists pb; split; [exact H9 | exact Hpb] |].
    split; [reflexivity |].
    intros Hnone. destruct (Hother Hnone) as [-> ->].
    split; reflexivity.
Qed.

Lemma dissector_dispatch_witness :
  count_occ layer_eq_dec (calls (fst (one_frame LittleEndian tcp_syn_frame)))
    Ethernet = 1%nat /\
  In IPv4 (calls (fst (one_frame LittleEndian tcp_syn_frame))) /\
  calls (fst (one_frame LittleEndian tcp_syn_frame)) = [Ethernet; IPv4; TCP] /\
  calls (fst (one_frame LittleEndian arp_frame)) = [Ethernet] /\
  nth_error tcp_syn_frame 12 = Some x08 /\
  nth_error tcp_syn_frame 13 = Some x00 /\
  calls (fst (one_frame BigEndian tcp_syn_frame)) = [Ethernet].
Proof.
  destruct (dissector_dispatch LittleEndian tcp_syn_frame)
    as (Hone & Hiff & _ & Hdispatch).
  destruct (dissector_dispatch LittleEndian arp_frame)
    as (_ & Hiff' & Hstop & _).
  destruct (dissector_dispatch BigEndian tcp_syn_frame)
    as (_ & Hbig & Hbigstop & _).
  assert (Hin : In IPv4 (calls (fst (one_frame LittleEndian tcp_syn_frame))))
    by (apply Hiff; split; reflexivity).
  split; [exact Hone |]. split; [exact Hin |]. split.
  { apply Hdispatch in Hin. apply Hin. }
  split.
  { apply Hstop. intros Hcalled. apply Hiff' in Hcalled.
    destruct Hcalled as [_ H13]. discriminate H13. }
  split; [reflexivity |]. split; [reflexivity |].
  apply Hbigstop. intros Hcalled. apply Hbig in Hcalled.
  destruct Hcalled as [H12 _]. discriminate H12.
Defined.

(** ** Truncated input *)

Lemma decoder_status_short host l data :
  (length data + 1 = min_len l)%nat ->
  decoder_status host l data = Raise struct_error.
Proof.
  intros Hlen. destruct l; simpl in Hlen; unfold decoder_status.
  - rewrite ethernet_frame_short by lia. reflexivity.
  - rewrite ipv4_packet_short by lia. reflexivity.
  - rewrite icmp_packet_short by lia. reflexivity.
  - rewrite tcp_segment_short by lia. reflexivity.
  - rewrite udp_segment_short by lia. reflexivity.
Qed.

Lemma decoder_status_enough host l data :
  (min_len l <= length data)%nat -> decoder_status host l data = OK tt.
Proof.
  intros Hlen. destruct l; simpl in Hlen; unfold decoder_status.
  - rewrite ethernet_frame_ok by lia. reflexivity.
  - destruct (ipv4_packet_ok data Hlen) as (? & ? & ? & _ & _ & _ & ->).
    reflexivity.
  - destruct (icmp_packet_ok data Hlen) as (? & ? & _ & _ & ->). reflexivity.
  - destruct (tcp_segment_ok data Hlen) as (? & ? & ->). reflexivity.
  - rewrite udp_segment_ok by lia. reflexivity.
Qed.

Lemma transport_decoder_selects proto l :
  transport_decoder proto = [l] ->
  (l = ICMP /\ proto = 1) \/ (l = TCP /\ proto = 6) \/ (l = UDP /\ proto = 17).
Proof.
  unfold transport_decoder.
  destruct (Z.eqb_spec proto 1); [intros [= <-]; tauto |].
  destruct (Z.eqb_spec proto 6); [intros [= <-]; tauto |].
  destruct (Z.eqb_spec proto 17); [intros [= <-]; tauto |].
  discriminate.
Qed.

(** An iteration that reaches layer [l] with [data] is, from there on, what
    the decoder of [l] makes of [data]: it raises in [l] exactly when that
    decoder raises. *)
Lemma one_frame_at_layer host raw l data :
  handed_to host raw l data ->
  exists events,
    match decoder_status host l data with
    | Raise e => one_frame host raw = (events ++ [Call l], Raise (Failure l e))
    | OK _ =>
        exists rest status,
          one_frame host raw = (events ++ Call l :: rest, status) /\
          forall e, status <> Raise (Failure l e)
    end.
Proof.
  intros Hh.
  pose proof (one_frame_outcome host raw) as Ho.
  destruct (one_frame host raw) as [events status]. cbn [fst snd] in Ho.
  destruct l; cbn [handed_to] in Hh.
  - (* Ethernet *)
    subst data. exists []. unfold decoder_status.
    destruct Ho as [e He | ? ? ? ? He Hne | ? ? ? e He Hip
                   | ? ? ? ? ? ? ? ? ? ? tail status He Hip Ht];
      rewrite He; cbn [bind app].
    + reflexivity.
    + do 2 eexists. split; [reflexivity | discriminate].
    + do 2 eexists. split; [reflexivity | discriminate].
    + do 2 eexists. split; [reflexivity |].
      intros e ->. inversion Ht.
  - (* IPv4 *)
    destruct Hh as (dest_mac & src_mac & Heth).
    exists [Call Ethernet; PrintEthernet dest_mac src_mac 8].
    unfold decoder_status.
    destruct Ho as [e He | ? ? ? ? He Hne | ? ? ? e He Hip
                   | ? ? ? ? ? ? ? ? ? ? tail status He Hip Ht];
      rewrite He in Heth; try discriminate Heth.
    + injection Heth as _ _ Hp _. contradiction.
    + injection Heth as <- <- <-. rewrite Hip. reflexivity.
    + injection Heth as <- <- <-. rewrite Hip. cbn [bind].
      do 2 eexists. split; [reflexivity |].
      intros e ->. inversion Ht.
  - (* ICMP *)
    destruct Hh as (dest_mac & src_mac & ip & version & hl & ttl & proto & src
                    & target & Heth & Hip & Hsel).
    apply transport_decoder_selects in Hsel
      as [[_ Hp] | [[[=] _] | [[=] _]]].
    exists (ipv4_prefix dest_mac src_mac version hl ttl proto src target).
    apply outcome_one_frame in Ho. rewrite <- Ho.
    rewrite (one_frame_icmp _ _ _ _ _ Heth _ _ _ _ _ _ _ Hip Hp).
    unfold decoder_status.
    destruct (icmp_packet data) as [[[[? ?] ?] ?] | e]; cbn [bind].
    + do 2 eexists. split; [reflexivity | discriminate].
    + reflexivity.
  - (* TCP *)
    destruct Hh as (dest_mac & src_mac & ip & version & hl & ttl & proto & src
                    & target & Heth & Hip & Hsel).
    apply transport_decoder_selects in Hsel
      as [[[=] _] | [[_ Hp] | [[=] _]]].
    exists (ipv4_prefix dest_mac src_mac version hl ttl proto src target).
    apply outcome_one_frame in Ho. rewrite <- Ho.
    rewrite (one_frame_tcp _ _ _ _ _ Heth _ _ _ _ _ _ _ Hip Hp).
    unfold decoder_status.
    destruct (tcp_segment data) as [[[[[[? ?] ?] ?] ?] ?] | e]; cbn [bind].
    + do 2 eexists. split; [reflexivity | discriminate].
    + reflexivity.
  - (* UDP *)
    destruct Hh as (dest_mac & src_mac & ip & version & hl & ttl & proto & src
                    & target & Heth & Hip & Hsel).
    apply transport_decoder_selects in Hsel
      as [[[=] _] | [[[=] _] | [_ Hp]]].
    exists (ipv4_prefix dest_mac src_mac version hl ttl proto src target).
    apply outcome_one_frame in Ho. rewrite <- Ho.
    rewrite (one_frame_udp _ _ _ _ _ Heth _ _ _ _ _ _ _ Hip Hp).
    unfold decoder_status.
    destruct (udp_segment data) as [[[[? ?] ?] ?] | e]; cbn [bind].
    + do 2 eexists. split; [reflexivity | discriminate].
    + reflexivity.
Qed.

(** C8. For each layer, with [min_len] 14, 20, 4, 14, 8 for Ethernet, IPv4,
    ICMP, TCP, UDP: on an input one byte shorter than [min_len] the decoder
    raises [struct.error], and an iteration that hands such an input to the
    decoder ends there, with that exception raised in that layer and
    nothing done after the call; on an input of exactly [min_len] bytes the
    decoder returns, and an iteration that hands it such an input enters
    the decoder and does not fail in that layer. *)
Theorem truncation_boundary (host : byte_order) (l : layer) (data : bytes) :
  ((length data + 1 = min_len l)%nat ->
   decoder_status host l data = Raise struct_error /\
   forall raw,
     handed_to host raw l data ->
     exists events,
       one_frame host raw =
         (events ++ [Call l], Raise (Failure l struct_error))) /\
  (length data = min_len l ->
   decoder_status host l data = OK tt /\
   forall raw,
     handed_to host raw l data ->
     In (Call l) (fst (one_frame host raw)) /\
     forall e, snd (one_frame host raw) <> Raise (Failure l e)).
Proof.
  split.
  - intros Hlen.
    pose proof (decoder_status_short host l data Hlen) as Hst.
    split; [exact Hst |].
    intros raw Hh.
    destruct (one_frame_at_layer host raw l data Hh) as [events Hrun].
    rewrite Hst in Hrun. exists events. exact Hrun.
  - intros Hlen.
    assert (Hst : decoder_status host l data = OK tt)
      by (apply decoder_status_enough; lia).
    split; [exact Hst |].
    intros raw Hh.
    destruct (one_frame_at_layer host raw l data Hh) as [events Hrun].
    rewrite Hst in Hrun. destruct Hrun as (rest & status & -> & Hok).
    cbn [fst snd]. split; [| exact Hok].
    apply in_or_app. right. left. reflexivity.
Qed.

Lemma tcp_syn_frame_hands_to_tcp (n : nat) :
  handed_to LittleEndian (firstn (34 + n) tcp_syn_frame) TCP
    (firstn n (skipn 34 tcp_syn_frame)).
Proof.
  exists "FF:FF:FF:FF:FF:FF"%string, "00:11:22:33:44:55"%string,
    (skipn 14 (firstn (34 + n) tcp_syn_frame)),
    4, 20, 64, 6, "10.0.0.1"%string, "10.0.0.2"%string.
  repeat split.
Qed.

Lemma truncation_boundary_witness :
  (exists events,
     one_frame LittleEndian (firstn 47 tcp_syn_frame) =
       (events ++ [Call TCP], Raise (Failure TCP struct_error))) /\
  In (Call TCP) (fst (one_frame LittleEndian (firstn 48 tcp_syn_frame))) /\
  (forall e,
     snd (one_frame LittleEndian (firstn 48 tcp_syn_frame)) <>
       Raise (Failure TCP e)) /\
  one_frame LittleEndian (firstn 13 tcp_syn_frame) =
    ([] ++ [Call Ethernet], Raise (Failure Ethernet struct_error)).
Proof.
  destruct (truncation_boundary LittleEndian TCP
              (firstn 13 (skipn 34 tcp_syn_frame))) as [Hshort _].
  destruct Hshort as [_ Hruns]; [reflexivity |].
  destruct (truncation_boundary LittleEndian TCP
              (firstn 14 (skipn 34 tcp_syn_frame))) as [_ Hmin].
  destruct Hmin as [_ Hrunm]; [reflexivity |].
  destruct (truncation_boundary LittleEndian Ethernet
              (firstn 13 tcp_syn_frame)) as [Heth _].
  destruct Heth as [_ Hrune]; [reflexivity |].
  split; [apply Hruns; apply (tcp_syn_frame_hands_to_tcp 13) |].
  split; [apply Hrunm; apply (tcp_syn_frame_hands_to_tcp 14) |].
  split; [apply Hrunm; apply (tcp_syn_frame_hands_to_tcp 14) |].
  reflexivity.
Defined.

(** ** Determinism *)

Ltac run_body :=
  cbn -[ethernet_frame ipv4_packet icmp_packet tcp_segment udp_segment Z.eqb].

(** What a run of the body shows does not depend on the locals it starts
    from: it is what [one_frame] computes from the buffer alone. *)
Lemma loop_body_shows_one_frame (host : byte_order) (raw : bytes)
  (s : locals) :
  observed (loop_body host raw s) = shown (one_frame host raw).
Proof.
  unfold observed, shown, loop_body, one_frame, step_bind, io_bind.
  run_body.
  destruct (ethernet_frame host raw) as [[[[dest_mac src_mac] p] ip] | e];
    run_body; [| reflexivity].
  destruct (p =? 8); run_body; [| reflexivity].
  destruct (ipv4_packet ip)
    as [[[[[[[version hl] ttl] proto] src] target] data] | e];
    run_body; [| reflexivity].
  destruct (proto =? 1); run_body.
  { destruct (icmp_packet data) as [[[[? ?] ?] ?] | e]; reflexivity. }
  destruct (proto =? 6); run_body.
  { destruct (tcp_segment data) as [[[[[[? ?] ?] ?] ?] ?] | e]; reflexivity. }
  destruct (proto =? 17); run_body.
  { destruct (udp_segment data) as [[[[? ?] ?] ?] | e]; reflexivity. }
  reflexivity.
Qed.

Lemma loop_body_status (host : byte_order) (raw : bytes) (s : locals) :
  snd (loop_body host raw s) = snd (shown (one_frame host raw)).
Proof.
  rewrite <- (loop_body_shows_one_frame host raw s). reflexivity.
Qed.

(** The loop on the locals gives, iteration by iteration, what
    [main_loop] gives, whatever the locals it starts from. *)
Lemma capture_loop_main_loop (host : byte_order) (frames : list bytes) :
  forall s, capture_loop host s frames = map shown (main_loop host frames).
Proof.
  induction frames as [| raw rest IH]; intros s; [reflexivity |].
  cbn [capture_loop main_loop].
  rewrite loop_body_status, loop_body_shows_one_frame.
  unfold shown at 1. cbn [snd].
  destruct (snd (one_frame host raw)) as [[] | f]; cbn [map].
  - rewrite IH. reflexivity.
  - reflexivity.
Qed.

Lemma main_loop_nth host frames : forall i o,
  nth_error (main_loop host frames) i = Some o ->
  exists raw, nth_error frames i = Some raw /\ o = one_frame host raw.
Proof.
  induction frames as [| raw rest IH]; intros i o Hnth.
  - destruct i; discriminate Hnth.
  - cbn [main_loop] in Hnth.
    destruct i as [| i].
    + exists raw. split; [reflexivity |].
      destruct (snd (one_frame host raw)); injection Hnth as <-; reflexivity.
    + destruct (snd (one_frame host raw)).
      * apply IH. exact Hnth.
      * destruct i; discriminate Hnth.
Qed.

(** C9. The only state of the program that outlives a dissection is the
    locals of [main], which each iteration inherits from the one before.
    They do not affect a dissection: run on the same buffer from any two
    stores of locals, the body logs the same events and ends the same way,
    and it never reads a name before assigning it (no [UnboundLocalError],
    even from no locals at all).  So in two capture loops, over any two
    sequences of buffers and from any locals, two iterations that receive
    equal buffers give identical results, whatever was dissected before
    each. *)
Theorem dissection_deterministic (host : byte_order) :
  (forall raw s1 s2,
     observed (loop_body host raw s1) = observed (loop_body host raw s2)) /\
  (forall raw s, snd (loop_body host raw s) <> Raise UnboundLocalError) /\
  (forall frames1 frames2 s1 s2 i j raw o1 o2,
     nth_error frames1 i = Some raw ->
     nth_error frames2 j = Some raw ->
     nth_error (capture_loop host s1 frames1) i = Some o1 ->
     nth_error (capture_loop host s2 frames2) j = Some o2 ->
     o1 = o2).
Proof.
  split; [| split].
  - intros raw s1 s2. rewrite !loop_body_shows_one_frame. reflexivity.
  - intros raw s. rewrite loop_body_status. unfold shown. cbn [snd].
    destruct (snd (one_frame host raw)); discriminate.
  - intros frames1 frames2 s1 s2 i j raw o1 o2 Hi Hj H1 H2.
    rewrite capture_loop_main_loop, nth_error_map in H1, H2.
    destruct (nth_error (main_loop host frames1) i) as [r1 |] eqn:E1;
      [| discriminate H1].
    destruct (nth_error (main_loop host frames2) j) as [r2 |] eqn:E2;
      [| discriminate H2].
    apply main_loop_nth in E1 as (raw1 & Hraw1 & ->).
    apply main_loop_nth in E2 as (raw2 & Hraw2 & ->).
    cbn [option_map] in H1, H2.
    injection H1 as <-. injection H2 as <-. congruence.
Qed.

Lemma dissection_deterministic_witness :
  ints no_locals v_proto = None /\
  ints locals_after_tcp v_proto = Some 6 /\
  ([Call Ethernet;
    PrintEthernet "FF:FF:FF:FF:FF:FF" "00:11:22:33:44:55" 1544],
   OK tt) =
  observed (loop_body LittleEndian arp_frame locals_after_tcp).
Proof.
  split; [reflexivity |]. split; [vm_compute; reflexivity |].
  destruct (dissection_deterministic LittleEndian) as (_ & _ & Hloop).
  apply (Hloop [arp_frame; tcp_syn_frame] [tcp_syn_frame; arp_frame]
           no_locals no_locals 0%nat 1%nat arp_frame);
    vm_compute; reflexivity.
Defined.

(** * Further properties of the decoders *)

(** ** When a decoder returns *)

Lemma decoder_status_eq (host : byte_order) (l : layer) (data : bytes) :
  decoder_status host l data =
    match l, data with
    | IPv4, [] => Raise IndexError
    | _, _ =>
        if (min_len l <=? length data)%nat then OK tt
        else Raise struct_error
    end.
Proof.
  destruct (Nat.leb_spec (min_len l) (length data)) as [Hlen | Hshort].
  - rewrite (decoder_status_enough host l data Hlen).
    destruct l; try reflexivity.
    destruct data; [simpl in Hlen; lia | reflexivity].
  - destruct l; simpl in Hshort; unfold decoder_status.
    + rewrite ethernet_frame_short by lia. destruct data; reflexivity.
    + destruct data as [| b data]; [reflexivity |].
      rewrite ipv4_packet_short by (simpl in *; lia). reflexivity.
    + rewrite icmp_packet_short by lia. destruct data; reflexivity.
    + rewrite tcp_segment_short by lia. destruct data; reflexivity.
    + rewrite udp_segment_short by lia. destruct data; reflexivity.
Qed.

Lemma decoder_status_cases (host : byte_order) (l : layer) (data : bytes) :
  ((min_len l <= length data)%nat /\ decoder_status host l data = OK tt) \/
  (l = IPv4 /\ data = [] /\ decoder_status host l data = Raise IndexError) \/
  ((length data < min_len l)%nat /\ ~ (l = IPv4 /\ data = []) /\
   decoder_status host l data = Raise struct_error).
Proof.
  rewrite decoder_status_eq.
  destruct (Nat.leb_spec (min_len l) (length data)) as [Hlen | Hshort].
  - left. split; [exact Hlen |].
    destruct l; try reflexivity.
    destruct data; [simpl in Hlen; lia | reflexivity].
  - right.
    destruct l, data as [| b data];
      try (left; repeat split; reflexivity);
      right; (split; [exact Hshort |]);
      (split; [intros [H1 H2]; discriminate | reflexivity]).
Qed.

(** X1. Whether a decoder returns depends on the length of its input only:
    it returns exactly when the input has at least the bytes its format
    unpacks (14, 20, 4, 14, 8).  On a shorter input it raises
    [struct.error], except that [ipv4_packet] on an empty input raises
    [IndexError], from [data[0]].  No decoder raises anything else. *)
Theorem decoder_status_by_length (host : byte_order) (l : layer)
  (data : bytes) :
  (decoder_status host l data = OK tt <-> (min_len l <= length data)%nat) /\
  (decoder_status host l data = Raise IndexError <-> l = IPv4 /\ data = []) /\
  (decoder_status host l data = Raise struct_error <->
   (length data < min_len l)%nat /\ ~ (l = IPv4 /\ data = [])) /\
  decoder_status host l data <> Raise ValueError.
Proof.
  destruct (decoder_status_cases host l data)
    as [[Hlen ->] | [(-> & -> & ->) | (Hshort & Hnot & ->)]].
  - split; [split; [intros _; exact Hlen | reflexivity] |].
    split; [split; [discriminate | intros [-> ->]; simpl in Hlen; lia] |].
    split; [split; [discriminate | lia] | discriminate].
  - split; [split; [discriminate | simpl; lia] |].
    split; [split; [intros _; split; reflexivity | reflexivity] |].
    split; [split; [discriminate | intros [_ Hnot]; exfalso; apply Hnot;
                                    split; reflexivity]
           | discriminate].
  - split; [split; [discriminate | lia] |].
    split; [split; [discriminate | intros Hboth; contradiction] |].
    split; [split; [intros _; split; assumption | reflexivity]
           | discriminate].
Qed.

Lemma decoder_returns_long_enough host l data :
  decoder_status host l data = OK tt -> (min_len l <= length data)%nat.
Proof.
  rewrite decoder_status_eq.
  destruct (Nat.leb_spec (min_len l) (length data)) as [Hlen | Hshort];
    [intros _; exact Hlen |].
  destruct l, data; discriminate.
Qed.

Lemma ipv4_packet_returns_long_enough data r :
  ipv4_packet data = OK r -> (20 <= length data)%nat.
Proof.
  intros Hret. apply (decoder_returns_long_enough LittleEndian IPv4).
  unfold decoder_status. rewrite Hret. reflexivity.
Qed.

Lemma tcp_segment_returns_long_enough data r :
  tcp_segment data = OK r -> (14 <= length data)%nat.
Proof.
  intros Hret. apply (decoder_returns_long_enough LittleEndian TCP).
  unfold decoder_status. rewrite Hret. reflexivity.
Qed.

Lemma udp_segment_returns_long_enough data r :
  udp_segment data = OK r -> (8 <= length data)%nat.
Proof.
  intros Hret. apply (decoder_returns_long_enough LittleEndian UDP).
  unfold decoder_status. rewrite Hret. reflexivity.
Qed.

Lemma icmp_packet_returns_long_enough data r :
  icmp_packet data = OK r -> (4 <= length data)%nat.
Proof.
  intros Hret. apply (decoder_returns_long_enough LittleEndian ICMP).
  unfold decoder_status. rewrite Hret. reflexivity.
Qed.

(** ** Ranges of the unpacked integers *)

Lemma be16_at_range (data : bytes) (off : nat) : 0 <= be16_at data off < 65536.
Proof.
  unfold be16_at.
  destruct (nth_error data off) as [hi |]; [| lia].
  destruct (nth_error data (S off)) as [lo |]; [| lia].
  pose proof (byte_val_range hi). pose proof (byte_val_range lo). lia.
Qed.

Lemma be32_at_range (data : bytes) (off : nat) :
  0 <= be32_at data off < 4294967296.
Proof.
  unfold be32_at.
  destruct (nth_error data off) as [b0 |]; [| lia].
  destruct (nth_error data (S off)) as [b1 |]; [| lia].
  destruct (nth_error data (S (S off))) as [b2 |]; [| lia].
  destruct (nth_error data (S (S (S off)))) as [b3 |]; [| lia].
  pose proof (byte_val_range b0). pose proof (byte_val_range b1).
  pose proof (byte_val_range b2). pose proof (byte_val_range b3). lia.
Qed.

Lemma high_nibble (v : Z) : Z.shiftr v 4 = v / 16.
Proof. rewrite Z.shiftr_div_pow2 by lia. reflexivity. Qed.

Lemma low_nibble (v : Z) : Z.land v 15 = v mod 16.
Proof. change 15 with (Z.ones 4). rewrite Z.land_ones by lia. reflexivity. Qed.

Lemma tcp_flags_are_bits (w : Z) :
  Forall (fun v => v = 0 \/ v = 1) (flag_values (tcp_flags w)).
Proof.
  rewrite tcp_flags_testbit. unfold flag_values. cbn [URG ACK PSH RST SYN FIN].
  repeat (apply Forall_cons; [destruct (Z.testbit w _); auto |]).
  apply Forall_nil.
Qed.

(** ** ICMP *)

(** X2. When [icmp_packet] returns, its input has at least 4 bytes; the
    type and the code are the bytes at offsets 0 and 1, the checksum is the
    big-endian integer at offsets 2-3 (below 65536), and the payload is the
    input after its first 4 bytes. *)
Theorem icmp_packet_fields (data : bytes) (icmp_type code checksum : Z)
  (payload : bytes) :
  icmp_packet data = OK (icmp_type, code, checksum, payload) ->
  (4 <= length data)%nat /\
  (exists b0 b1,
     nth_error data 0 = Some b0 /\ nth_error data 1 = Some b1 /\
     icmp_type = byte_val b0 /\ code = byte_val b1) /\
  checksum = be16_at data 2 /\
  0 <= checksum < 65536 /\
  data = firstn 4 data ++ payload /\
  length payload = (length data - 4)%nat.
Proof.
  intros Hret.
  pose proof (icmp_packet_returns_long_enough _ _ Hret) as Hlen.
  destruct (icmp_packet_ok data Hlen) as (b0 & b1 & H0 & H1 & Hok).
  rewrite Hok in Hret. injection Hret as <- <- <- <-.
  split; [exact Hlen |].
  split; [exists b0, b1; repeat split; assumption |].
  split; [reflexivity |].
  split; [apply be16_at_range |].
  split; [exact (eq_sym (firstn_skipn 4 data)) | exact (length_skipn 4 data)].
Qed.

Lemma icmp_packet_fields_witness :
  (4 <= length icmp_echo)%nat /\
  (exists b0 b1,
     nth_error icmp_echo 0 = Some b0 /\ nth_error icmp_echo 1 = Some b1 /\
     8 = byte_val b0 /\ 0 = byte_val b1) /\
  63487 = be16_at icmp_echo 2 /\
  0 <= 63487 < 65536 /\
  icmp_echo = firstn 4 icmp_echo ++ buffer [0; 1; 0; 1]%N /\
  length (buffer [0; 1; 0; 1]%N) = (length icmp_echo - 4)%nat.
Proof.
  apply (icmp_packet_fields icmp_echo 8 0 63487 (buffer [0; 1; 0; 1]%N)).
  reflexivity.
Defined.

(** ** IPv4 *)

Lemma ipv4_packet_payload (data : bytes) (version header_length ttl proto : Z)
  (src target : string) (payload : bytes) :
  ipv4_packet data =
    OK (version, header_length, ttl, proto, src, target, payload) ->
  0 <= header_length <= 60 /\
  payload = skipn (Z.to_nat header_length) data.
Proof.
  intros Hret.
  pose proof (ipv4_packet_returns_long_enough _ _ Hret) as Hlen.
  destruct (ipv4_packet_ok data Hlen) as (b0 & b8 & b9 & _ & _ & _ & Hok).
  rewrite Hok in Hret. clear Hok.
  injection Hret as _ Hhl _ _ _ _ Hpayload.
  pose proof (low_nibble_range (byte_val b0)).
  subst header_length. split; [lia | exact (eq_sym Hpayload)].
Qed.

(** X3. When [ipv4_packet] returns: the version and the header length
    together are the first byte (16 x version + header length / 4), the
    version is below 16, the header length is a multiple of 4 up to 60,
    the TTL and the protocol are the bytes at offsets 8 and 9, the two
    addresses are the dotted forms of the bytes at offsets 12-15 and
    16-19, and the payload is the input from the header-length offset on,
    empty when that offset is beyond the input. *)
Theorem ipv4_packet_fields (data : bytes) (version header_length ttl proto : Z)
  (src target : string) (payload : bytes) :
  ipv4_packet data =
    OK (version, header_length, ttl, proto, src, target, payload) ->
  (exists b0 b8 b9,
     nth_error data 0 = Some b0 /\
     nth_error data 8 = Some b8 /\
     nth_error data 9 = Some b9 /\
     byte_val b0 = 16 * version + header_length / 4 /\
     ttl = byte_val b8 /\
     proto = byte_val b9) /\
  0 <= version < 16 /\
  0 <= header_length <= 60 /\
  header_length mod 4 = 0 /\
  src = ipv4 (firstn 4 (skipn 12 data)) /\
  target = ipv4 (firstn 4 (skipn 16 data)) /\
  payload = skipn (Z.to_nat header_length) data /\
  length payload = (length data - Z.to_nat header_length)%nat.
Proof.
  intros Hret.
  pose proof (ipv4_packet_returns_long_enough _ _ Hret) as Hlen.
  destruct (ipv4_packet_ok data Hlen) as (b0 & b8 & b9 & H0 & H8 & H9 & Hok).
  rewrite Hok in Hret.
  injection Hret as Hv Hhl Httl Hproto Hsrc Htarget Hpayload.
  pose proof (byte_val_range b0) as Hb0.
  rewrite high_nibble in Hv. rewrite low_nibble in Hhl, Hpayload.
  pose proof (Z.mod_pos_bound (byte_val b0) 16 eq_refl) as Hmod.
  pose proof (Z.div_mod (byte_val b0) 16) as Hdm.
  assert (Hquot : header_length / 4 = byte_val b0 mod 16)
    by (rewrite <- Hhl; apply Z.div_mul; lia).
  split.
  { exists b0, b8, b9.
    split; [exact H0 |]. split; [exact H8 |]. split; [exact H9 |].
    split; [rewrite Hquot, <- Hv; lia |].
    split; [exact (eq_sym Httl) | exact (eq_sym Hproto)]. }
  split; [rewrite <- Hv; split;
          [apply Z.div_pos; lia | apply Z.div_lt_upper_bound; lia] |].
  split; [lia |].
  split; [rewrite <- Hhl; apply Z.mod_mul; lia |].
  split; [exact (eq_sym Hsrc) |]. split; [exact (eq_sym Htarget) |].
  subst header_length. split; [exact (eq_sym Hpayload) |].
  rewrite <- Hpayload. apply length_skipn.
Qed.

Lemma ipv4_packet_fields_witness :
  (exists b0 b8 b9,
     nth_error nibble0_packet 0 = Some b0 /\
     nth_error nibble0_packet 8 = Some b8 /\
     nth_error nibble0_packet 9 = Some b9 /\
     byte_val b0 = 16 * 4 + 0 / 4 /\
     64 = byte_val b8 /\
     6 = byte_val b9) /\
  0 <= 4 < 16 /\
  0 <= 0 <= 60 /\
  0 mod 4 = 0 /\
  "10.0.0.1"%string = ipv4 (firstn 4 (skipn 12 nibble0_packet)) /\
  "10.0.0.2"%string = ipv4 (firstn 4 (skipn 16 nibble0_packet)) /\
  nibble0_packet = skipn (Z.to_nat 0) nibble0_packet /\
  length nibble0_packet = (length nibble0_packet - Z.to_nat 0)%nat.
Proof.
  apply (ipv4_packet_fields nibble0_packet 4 0 64 6
           "10.0.0.1"%string "10.0.0.2"%string nibble0_packet).
  reflexivity.
Defined.

(** ** TCP *)

Lemma tcp_segment_all_fields data :
  (14 <= length data)%nat ->
  tcp_segment data =
    OK (be16_at data 0, be16_at data 2, be32_at data 4, be32_at data 8,
        tcp_flags (be16_at data 12),
        skipn (Z.to_nat (tcp_data_offset data)) data).
Proof.
  intros Hlen. open_buffer data Hlen. reflexivity.
Qed.

Lemma tcp_data_offset_range (data : bytes) :
  0 <= tcp_data_offset data <= 60 /\ tcp_data_offset data mod 4 = 0.
Proof.
  unfold tcp_data_offset.
  pose proof (be16_at_range data 12) as Hw.
  rewrite Z.shiftr_div_pow2 by lia. change (2 ^ 12) with 4096.
  assert (0 <= be16_at data 12 / 4096 < 16)
    by (split; [apply Z.div_pos; lia | apply Z.div_lt_upper_bound; lia]).
  split; [lia | apply Z.mod_mul; lia].
Qed.

(** X4. When [tcp_segment] returns: the ports are the big-endian integers
    at offsets 0-1 and 2-3 (below 65536), the sequence and acknowledgment
    numbers those at offsets 4-7 and 8-11 (below 2^32), and the flags are
    those of the word at offsets 12-13, each 0 or 1. *)
Theorem tcp_segment_fields (data : bytes)
  (src_port dest_port sequence acknowledgment : Z) (flags : tcp_flags_t)
  (payload : bytes) :
  tcp_segment data =
    OK (src_port, dest_port, sequence, acknowledgment, flags, payload) ->
  (14 <= length data)%nat /\
  src_port = be16_at data 0 /\ 0 <= src_port < 65536 /\
  dest_port = be16_at data 2 /\ 0 <= dest_port < 65536 /\
  sequence = be32_at data 4 /\ 0 <= sequence < 4294967296 /\
  acknowledgment = be32_at data 8 /\ 0 <= acknowledgment < 4294967296 /\
  flags = tcp_flags (be16_at data 12) /\
  Forall (fun v => v = 0 \/ v = 1) (flag_values flags).
Proof.
  intros Hret.
  pose proof (tcp_segment_returns_long_enough _ _ Hret) as Hlen.
  rewrite (tcp_segment_all_fields data Hlen) in Hret.
  injection Hret as <- <- <- <- <- _.
  repeat split; try apply be16_at_range; try apply be32_at_range;
    try exact Hlen.
  apply tcp_flags_are_bits.
Qed.

Lemma tcp_segment_fields_witness :
  (14 <= length offset60_segment)%nat /\
  80 = be16_at offset60_segment 0 /\ 0 <= 80 < 65536 /\
  443 = be16_at offset60_segment 2 /\ 0 <= 443 < 65536 /\
  1 = be32_at offset60_segment 4 /\ 0 <= 1 < 4294967296 /\
  0 = be32_at offset60_segment 8 /\ 0 <= 0 < 4294967296 /\
  tcp_flags 61442 = tcp_flags (be16_at offset60_segment 12) /\
  Forall (fun v => v = 0 \/ v = 1) (flag_values (tcp_flags 61442)).
Proof.
  apply (tcp_segment_fields offset60_segment 80 443 1 0 (tcp_flags 61442) []).
  reflexivity.
Defined.

(** X5. When [tcp_segment] returns, the payload is the input from the data
    offset on, where the data offset is 4 times the top four bits of the
    word at offsets 12-13: a multiple of 4 between 0 and 60, with no lower
    bound of 20.  The payload is empty when the offset is beyond the
    input, and it is the whole input, header included, when the offset
    is 0. *)
Theorem tcp_payload_starts_at_data_offset (data : bytes)
  (src_port dest_port sequence acknowledgment : Z) (flags : tcp_flags_t)
  (payload : bytes) :
  tcp_segment data =
    OK (src_port, dest_port, sequence, acknowledgment, flags, payload) ->
  0 <= tcp_data_offset data <= 60 /\
  tcp_data_offset data mod 4 = 0 /\
  payload = skipn (Z.to_nat (tcp_data_offset data)) data /\
  length payload = (length data - Z.to_nat (tcp_data_offset data))%nat /\
  (tcp_data_offset data = 0 -> payload = data).
Proof.
  intros Hret.
  pose proof (tcp_segment_returns_long_enough _ _ Hret) as Hlen.
  rewrite (tcp_segment_all_fields data Hlen) in Hret.
  injection Hret as _ _ _ _ _ <-.
  destruct (tcp_data_offset_range data) as [Hrange Hmul].
  split; [exact Hrange |]. split; [exact Hmul |].
  split; [reflexivity |]. split; [apply length_skipn |].
  intros ->. reflexivity.
Qed.

Lemma tcp_payload_starts_at_data_offset_witness :
  0 <= tcp_data_offset offset0_segment <= 60 /\
  tcp_data_offset offset0_segment mod 4 = 0 /\
  offset0_segment = skipn (Z.to_nat (tcp_data_offset offset0_segment))
                      offset0_segment /\
  length offset0_segment =
    (length offset0_segment - Z.to_nat (tcp_data_offset offset0_segment))%nat.
Proof.
  destruct (tcp_payload_starts_at_data_offset offset0_segment
              80 443 1 0 (tcp_flags 2) offset0_segment)
    as (Hrange & Hmul & Hpayload & Hlen & _); [reflexivity |].
  split; [exact Hrange |]. split; [exact Hmul |].
  split; [exact Hpayload | exact Hlen].
Defined.

(** ** The protocol value of [ethernet_frame] *)

(** X6. The protocol value [ethernet_frame] returns is the EtherType of the
    frame passed through [socket.htons]: on a little-endian host its two
    bytes are swapped (0x0800 is returned as 8, 0x0806 as 1544), on a
    big-endian host it is the EtherType itself.  It is below 65536, and
    [htons] of it gives the EtherType back. *)
Theorem ethernet_proto_byte_order (host : byte_order) (raw : bytes)
  (dest_mac src_mac : string) (eth_proto : Z) (residual : bytes) :
  ethernet_frame host raw = OK (dest_mac, src_mac, eth_proto, residual) ->
  exists hi lo,
    nth_error raw 12 = Some hi /\
    nth_error raw 13 = Some lo /\
    eth_proto =
      match host with
      | LittleEndian => byte_val lo * 256 + byte_val hi
      | BigEndian => byte_val hi * 256 + byte_val lo
      end /\
    0 <= eth_proto < 65536 /\
    htons host eth_proto = byte_val hi * 256 + byte_val lo.
Proof.
  intros Hret.
  apply ethernet_frame_returns in Hret as (Hlen & -> & _).
  open_buffer raw Hlen.
  unfold be16_at. cbn [nth_error].
  match goal with
  | |- context [htons host (byte_val ?hi * 256 + byte_val ?lo)] =>
      exists hi, lo;
      pose proof (byte_val_range hi) as Hhi;
      pose proof (byte_val_range lo) as Hlo
  end.
  split; [reflexivity |]. split; [reflexivity |].
  destruct host.
  - rewrite !htons_little_endian by assumption.
    split; [reflexivity |]. split; [lia | reflexivity].
  - cbn [htons]. split; [reflexivity |]. split; [lia | reflexivity].
Qed.

Lemma ethernet_proto_byte_order_witness :
  exists hi lo,
    nth_error arp_frame 12 = Some hi /\
    nth_error arp_frame 13 = Some lo /\
    1544 = byte_val lo * 256 + byte_val hi /\
    0 <= 1544 < 65536 /\
    htons LittleEndian 1544 = byte_val hi * 256 + byte_val lo.
Proof.
  apply (ethernet_proto_byte_order LittleEndian arp_frame
           "FF:FF:FF:FF:FF:FF"%string "00:11:22:33:44:55"%string 1544
           (skipn 14 arp_frame)).
  reflexivity.
Defined.

(** ** The EtherType test on either host *)

Lemma ipv4_entered_iff (host : byte_order) (raw : bytes) :
  In IPv4 (calls (fst (one_frame host raw))) <->
  (14 <= length raw)%nat /\ htons host (be16_at raw 12) = 8.
Proof.
  pose proof (one_frame_outcome host raw) as Ho.
  destruct (one_frame host raw) as [events status]. cbn [fst snd] in Ho.
  destruct Ho as [e He | dest_mac src_mac p data He Hne
                 | dest_mac src_mac ip e He Hip
                 | dest_mac src_mac ip version hl ttl proto src target data
                     tail status He Hip Ht];
    cbn [fst].
  - apply ethernet_frame_raises in He as [Hshort _].
    cbn [calls flat_map app].
    split; [intros [H | []]; discriminate H | intros [Hlen _]; lia].
  - apply ethernet_frame_returns in He as (Hlen & Hp & _).
    cbn [calls flat_map app].
    split; [intros [H | []]; discriminate H | intros [_ H]; congruence].
  - apply ethernet_frame_returns in He as (Hlen & Hp & _).
    cbn [calls flat_map app].
    split; [intros _; split; [exact Hlen | congruence]
           | intros _; right; left; reflexivity].
  - apply ethernet_frame_returns in He as (Hlen & Hp & _).
    rewrite calls_app. unfold ipv4_prefix. cbn [calls flat_map app].
    split; [intros _; split; [exact Hlen | congruence]
           | intros _; right; left; reflexivity].
Qed.

(** X7. On a big-endian host [socket.htons] changes nothing, so the test
    [eth_proto == 8] of [main] holds exactly for the EtherType bytes
    0x00 0x08: [ipv4_packet] is entered for those frames only, and a frame
    with EtherType 0x0800 (IPv4) is printed as an Ethernet frame with
    protocol 2048 and not decoded further. *)
Theorem big_endian_host_dispatch (raw : bytes) :
  (In IPv4 (calls (fst (one_frame BigEndian raw))) <->
   nth_error raw 12 = Some x00 /\ nth_error raw 13 = Some x08) /\
  (nth_error raw 12 = Some x08 ->
   nth_error raw 13 = Some x00 ->
   one_frame BigEndian raw =
     ([Call Ethernet;
       PrintEthernet (get_mac_addr (firstn 6 raw))
         (get_mac_addr (firstn 6 (skipn 6 raw))) 2048],
      OK tt)).
Proof.
  split.
  - rewrite ipv4_entered_iff. split.
    + intros [Hlen Hty]. apply ether_type_big_endian; assumption.
    + intros [H12 H13].
      assert (Hlen : (14 <= length raw)%nat).
      { apply (proj1 (nth_error_Some raw 13)). rewrite H13. discriminate. }
      split; [exact Hlen | apply ether_type_big_endian; auto].
  - intros H12 H13.
    assert (Hlen : (14 <= length raw)%nat).
    { apply (proj1 (nth_error_Some raw 13)). rewrite H13. discriminate. }
    pose proof (ethernet_frame_ok BigEndian raw Hlen) as Heth.
    assert (Hty : htons BigEndian (be16_at raw 12) = 2048).
    { unfold be16_at. rewrite H12, H13. reflexivity. }
    rewrite Hty in Heth.
    apply (one_frame_other_ether_type _ _ _ _ _ _ Heth). discriminate.
Qed.

Lemma big_endian_host_dispatch_witness :
  ~ In IPv4 (calls (fst (one_frame BigEndian tcp_syn_frame))) /\
  one_frame BigEndian tcp_syn_frame =
    ([Call Ethernet;
      PrintEthernet "FF:FF:FF:FF:FF:FF" "00:11:22:33:44:55" 2048], OK tt).
Proof.
  destruct (big_endian_host_dispatch tcp_syn_frame) as [Hiff Hrun].
  split.
  - intros Hin. apply Hiff in Hin. destruct Hin as [H12 _]. discriminate H12.
  - apply Hrun; reflexivity.
Defined.

(** * Further properties of the capture loop *)

(** ** The exceptions of an iteration *)





(** ** Frames that cannot raise *)




(** ** The loop *)

Lemma main_loop_all_return host frames :
  Forall (returns host) frames ->
  main_loop host frames = map (one_frame host) frames.
Proof.
  induction 1 as [| raw rest Hraw _ IH]; [reflexivity |].
  cbn [main_loop map]. unfold returns in Hraw. rewrite Hraw, IH. reflexivity.
Qed.

Lemma main_loop_ends_on_exception host raw rest :
  ~ returns host raw -> main_loop host (raw :: rest) = [one_frame host raw].
Proof.
  unfold returns. intros Hraise. cbn [main_loop].
  destruct (snd (one_frame host raw)) as [[] | f];
    [contradiction | reflexivity].
Qed.

(** X10. The loop dissects the frames in order, one result each, as long
    as the iterations return; the first iteration that raises is the last
    one: its result ends the list and no later frame is dissected.  When
    every iteration returns, every frame is dissected. *)
Theorem main_loop_stops_at_first_exception (host : byte_order)
  (before after : list bytes) (raw : bytes) :
  Forall (returns host) before ->
  (~ returns host raw ->
   main_loop host (before ++ raw :: after) =
     map (one_frame host) before ++ [one_frame host raw]) /\
  (Forall (returns host) (raw :: after) ->
   main_loop host (before ++ raw :: after) =
     map (one_frame host) (before ++ raw :: after)).
Proof.
  intros Hbefore. split.
  - intros Hraise.
    induction Hbefore as [| first rest Hfirst _ IH].
    + apply main_loop_ends_on_exception. exact Hraise.
    + cbn [app main_loop map]. unfold returns in Hfirst.
      rewrite Hfirst, IH. reflexivity.
  - intros Hafter. apply main_loop_all_return.
    apply Forall_app. split; assumption.
Qed.

Lemma main_loop_stops_at_first_exception_witness :
  main_loop LittleEndian
    [arp_frame; firstn 13 tcp_syn_frame; tcp_syn_frame] =
    [one_frame LittleEndian arp_frame;
     ([Call Ethernet], Raise (Failure Ethernet struct_error))] /\
  main_loop LittleEndian [arp_frame; tcp_syn_frame; arp_frame] =
    map (one_frame LittleEndian) [arp_frame; tcp_syn_frame; arp_frame].
Proof.
  split.
  - apply (main_loop_stops_at_first_exception LittleEndian [arp_frame]
             [tcp_syn_frame] (firstn 13 tcp_syn_frame)).
    + repeat constructor.
    + unfold returns. discriminate.
  - destruct (main_loop_stops_at_first_exception LittleEndian [arp_frame]
                [arp_frame] tcp_syn_frame) as [_ Hall].
    + repeat constructor.
    + refine (Hall _). repeat constructor.
Defined.

(** * Properties of the address formats *)

(** ** Strings *)

Lemma length_append (a b : string) :
  String.length (a ++ b) = (String.length a + String.length b)%nat.
Proof.
  induction a as [| c a IH]; [reflexivity |].
  cbn [append String.length]. rewrite IH. reflexivity.
Qed.

Lemma all_chars_append (test : ascii -> bool) (a b : string) :
  all_chars test (a ++ b) = (all_chars test a && all_chars test b)%bool.
Proof.
  induction a as [| c a IH]; [reflexivity |].
  cbn [append all_chars]. rewrite IH. apply andb_assoc.
Qed.

Lemma upper_append (a b : string) :
  upper (a ++ b) = (upper a ++ upper b)%string.
Proof.
  induction a as [| c a IH]; [reflexivity |].
  cbn [append upper]. rewrite IH. reflexivity.
Qed.

Lemma nibbles_of_byte (b : byte) :
  0 <= byte_val b / 16 < 16 /\ 0 <= byte_val b mod 16 < 16.
Proof.
  pose proof (byte_val_range b) as Hb. split.
  - split; [apply Z.div_pos; lia | apply Z.div_lt_upper_bound; lia].
  - apply Z.mod_pos_bound. reflexivity.
Qed.

(** Uppercasing a hexadecimal digit of ['{:02x}'] gives the uppercase digit
    of the same value. *)
Lemma hex_value_upper_digit (n : Z) :
  0 <= n < 16 ->
  hex_value (upper_ascii (hex_digit n)) = n /\
  is_upper_hex (upper_ascii (hex_digit n)) = true.
Proof.
  intros Hn. rewrite <- (Z2Nat.id n) by lia.
  assert (Hk : (Z.to_nat n < 16)%nat) by lia.
  revert Hk. generalize (Z.to_nat n) as k. intros k Hk.
  do 16 (destruct k as [| k]; [split; reflexivity |]).
  lia.
Qed.

(** ** [get_mac_addr] *)

Lemma get_mac_addr_cons (b : byte) (rest : bytes) :
  get_mac_addr (b :: rest) =
    (mac_octet b ++
     match rest with
     | [] => EmptyString
     | _ :: _ => String ":" (get_mac_addr rest)
     end)%string.
Proof.
  unfold get_mac_addr. destruct rest as [| b' rest]; [reflexivity |].
  cbn [map String.concat]. rewrite upper_append. reflexivity.
Qed.

Lemma mac_octet_inj (a b : byte) : mac_octet a = mac_octet b -> a = b.
Proof.
  unfold mac_octet. intros [= Hhi Hlo].
  destruct (nibbles_of_byte a) as [Ha1 Ha2].
  destruct (nibbles_of_byte b) as [Hb1 Hb2].
  apply (f_equal hex_value) in Hhi, Hlo.
  rewrite (proj1 (hex_value_upper_digit _ Ha1)) in Hhi.
  rewrite (proj1 (hex_value_upper_digit _ Hb1)) in Hhi.
  rewrite (proj1 (hex_value_upper_digit _ Ha2)) in Hlo.
  rewrite (proj1 (hex_value_upper_digit _ Hb2)) in Hlo.
  apply byte_val_inj.
  rewrite (Z.div_mod (byte_val a) 16), (Z.div_mod (byte_val b) 16) by lia.
  congruence.
Qed.

Lemma mac_octet_chars (b : byte) : all_chars is_mac_char (mac_octet b) = true.
Proof.
  destruct (nibbles_of_byte b) as [H1 H2].
  unfold mac_octet, is_mac_char. cbn [all_chars].
  rewrite (proj2 (hex_value_upper_digit _ H1)).
  rewrite (proj2 (hex_value_upper_digit _ H2)). reflexivity.
Qed.

(** X11. [get_mac_addr] writes two characters for each byte and a colon
    between two bytes: 3n - 1 characters for n bytes (17 for a hardware
    address of 6 bytes, none for no byte), each of them an uppercase
    hexadecimal digit or a colon. *)
Theorem get_mac_addr_format (bytes_addr : bytes) :
  String.length (get_mac_addr bytes_addr) = (3 * length bytes_addr - 1)%nat /\
  all_chars is_mac_char (get_mac_addr bytes_addr) = true /\
  (length bytes_addr = 6%nat ->
   String.length (get_mac_addr bytes_addr) = 17%nat).
Proof.
  assert (Hboth :
    String.length (get_mac_addr bytes_addr) = (3 * length bytes_addr - 1)%nat
    /\ all_chars is_mac_char (get_mac_addr bytes_addr) = true).
  { induction bytes_addr as [| b rest [IHlen IHchars]].
    - split; reflexivity.
    - rewrite get_mac_addr_cons. rewrite length_append, all_chars_append.
      rewrite mac_octet_chars.
      destruct rest as [| b' rest]; [split; reflexivity |].
      cbn [String.length all_chars]. rewrite IHlen, IHchars.
      cbn [length]. split; [cbn [mac_octet String.length]; lia | reflexivity]. }
  destruct Hboth as [Hlen Hchars].
  split; [exact Hlen |]. split; [exact Hchars |].
  intros H6. rewrite Hlen, H6. reflexivity.
Qed.

Lemma get_mac_addr_format_witness :
  String.length (get_mac_addr (firstn 6 arp_frame)) = 17%nat /\
  get_mac_addr (firstn 6 (skipn 6 arp_frame)) = "00:11:22:33:44:55"%string.
Proof.
  destruct (get_mac_addr_format (firstn 6 arp_frame)) as (_ & _ & H17).
  split; [apply H17; reflexivity | reflexivity].
Defined.

(** X12. [get_mac_addr] loses nothing: two byte sequences with the same
    text are the same sequence. *)
Theorem get_mac_addr_injective (a b : bytes) :
  get_mac_addr a = get_mac_addr b -> a = b.
Proof.
  revert b. induction a as [| x a IH]; intros [| y b] Heq.
  - reflexivity.
  - rewrite get_mac_addr_cons in Heq. discriminate Heq.
  - rewrite get_mac_addr_cons in Heq. discriminate Heq.
  - rewrite !get_mac_addr_cons in Heq.
    unfold mac_octet in Heq. cbn [append] in Heq.
    injection Heq as Hhi Hlo Hrest.
    assert (Hxy : x = y)
      by (apply mac_octet_inj; unfold mac_octet; congruence).
    subst y. f_equal.
    destruct a as [| x' a], b as [| y' b]; try discriminate Hrest.
    + reflexivity.
    + injection Hrest as Hrest. apply IH. exact Hrest.
Qed.

Lemma get_mac_addr_injective_witness :
  firstn 6 arp_frame = firstn 6 tcp_syn_frame.
Proof.
  apply (get_mac_addr_injective (firstn 6 arp_frame) (firstn 6 tcp_syn_frame)).
  reflexivity.
Defined.

(** ** [ipv4] *)

Lemma str_shape (b : byte) :
  all_chars is_digit (str b) = true /\
  (1 <= String.length (str b) <= 3)%nat.
Proof.
  destruct b; (split; [reflexivity | vm_compute; lia]).
Qed.

Lemma str_inj (a b : byte) : str a = str b -> a = b.
Proof.
  unfold str. intros Heq.
  assert (Hne : forall n, N.to_uint n <> Decimal.Nil).
  { intros [| p]; [discriminate | apply DecimalPos.Unsigned.to_uint_nonnil]. }
  apply (f_equal NilZero.uint_of_string) in Heq.
  rewrite !NilZero.usu in Heq by apply Hne.
  injection Heq as Heq. apply DecimalN.Unsigned.to_uint_inj in Heq.
  apply byte_val_inj. unfold byte_val. rewrite Heq. reflexivity.
Qed.

Lemma ipv4_cons (b : byte) (rest : bytes) :
  ipv4 (b :: rest) =
    (str b ++
     match rest with
     | [] => EmptyString
     | _ :: _ => String "." (ipv4 rest)
     end)%string.
Proof.
  unfold ipv4. destruct rest as [| b' rest]; [| reflexivity].
  cbn [map String.concat]. induction (str b) as [| c t IH]; [reflexivity |].
  cbn [append]. rewrite <- IH. reflexivity.
Qed.

Lemma digits_are_dotted (text : string) :
  all_chars is_digit text = true -> all_chars is_dotted_char text = true.
Proof.
  induction text as [| c text IH]; [reflexivity |].
  cbn [all_chars]. intros H. apply andb_prop in H as [Hc Ht].
  rewrite (IH Ht). unfold is_dotted_char. rewrite Hc. reflexivity.
Qed.

(** X13. [ipv4] writes each byte in decimal, without leading zeros, with a
    dot between two bytes: every character is a digit or a dot, and n
    bytes take between 2n - 1 and 4n - 1 characters, so an address of 4
    bytes takes between 7 and 15. *)
Theorem ipv4_format (addr : bytes) :
  all_chars is_dotted_char (ipv4 addr) = true /\
  (2 * length addr - 1 <= String.length (ipv4 addr) <= 4 * length addr - 1)%nat
  /\
  (length addr = 4%nat -> (7 <= String.length (ipv4 addr) <= 15)%nat).
Proof.
  assert (Hboth :
    all_chars is_dotted_char (ipv4 addr) = true /\
    (2 * length addr - 1 <= String.length (ipv4 addr)
     <= 4 * length addr - 1)%nat).
  { induction addr as [| b rest [IHchars IHlen]].
    - split; [reflexivity | cbn; lia].
    - rewrite ipv4_cons, all_chars_append, length_append.
      destruct (str_shape b) as [Hdigits Hlen].
      rewrite (digits_are_dotted _ Hdigits).
      destruct rest as [| b' rest].
      + split; [reflexivity | cbn [String.length length]; lia].
      + cbn [all_chars String.length]. rewrite IHchars.
        split; [reflexivity |]. cbn [length] in *. lia. }
  destruct Hboth as [Hchars Hlen].
  split; [exact Hchars |]. split; [exact Hlen |].
  intros H4. rewrite H4 in Hlen. lia.
Qed.

Lemma ipv4_format_witness :
  (7 <= String.length (ipv4 (firstn 4 (skipn 12 nibble0_packet))) <= 15)%nat /\
  ipv4 (firstn 4 (skipn 12 nibble0_packet)) = "10.0.0.1"%string.
Proof.
  destruct (ipv4_format (firstn 4 (skipn 12 nibble0_packet))) as (_ & _ & H4).
  split; [apply H4; reflexivity | reflexivity].
Defined.

Lemma digits_then_dot (d1 d2 r1 r2 : string) :
  all_chars is_digit d1 = true ->
  all_chars is_digit d2 = true ->
  (r1 = EmptyString \/ exists t, r1 = String "." t) ->
  (r2 = EmptyString \/ exists t, r2 = String "." t) ->
  (d1 ++ r1 = d2 ++ r2)%string ->
  d1 = d2 /\ r1 = r2.
Proof.
  revert d2. induction d1 as [| c1 d1 IH]; intros [| c2 d2] H1 H2 Hr1 Hr2 Heq;
    cbn [append all_chars] in *.
  - split; [reflexivity | exact Heq].
  - apply andb_prop in H2 as [Hc _].
    destruct Hr1 as [-> | [t ->]]; [discriminate Heq |].
    injection Heq as <- _. discriminate Hc.
  - apply andb_prop in H1 as [Hc _].
    destruct Hr2 as [-> | [t ->]]; [discriminate Heq |].
    injection Heq as -> _. discriminate Hc.
  - apply andb_prop in H1 as [_ H1]. apply andb_prop in H2 as [_ H2].
    injection Heq as -> Heq.
    destruct (IH d2 H1 H2 Hr1 Hr2 Heq) as [-> ->]. split; reflexivity.
Qed.

(** X14. [ipv4] loses nothing: two byte sequences with the same dotted text
    are the same sequence. *)
Theorem ipv4_injective (a b : bytes) : ipv4 a = ipv4 b -> a = b.
Proof.
  revert b. induction a as [| x a IH]; intros [| y b] Heq.
  - reflexivity.
  - apply (f_equal String.length) in Heq.
    rewrite ipv4_cons, length_append in Heq.
    destruct (str_shape y) as [_ Hlen]. cbn [ipv4 map String.concat] in Heq.
    cbn [String.length] in Heq. lia.
  - apply (f_equal String.length) in Heq.
    rewrite ipv4_cons, length_append in Heq.
    destruct (str_shape x) as [_ Hlen]. cbn [ipv4 map String.concat] in Heq.
    cbn [String.length] in Heq. lia.
  - rewrite !ipv4_cons in Heq.
    apply digits_then_dot in Heq as [Hxy Hrest];
      try apply str_shape;
      try (destruct a; [left; reflexivity | right; eexists; reflexivity]);
      try (destruct b; [left; reflexivity | right; eexists; reflexivity]).
    apply str_inj in Hxy. subst y. f_equal.
    destruct a as [| x' a], b as [| y' b]; try discriminate Hrest.
    + reflexivity.
    + injection Hrest as Hrest. apply IH. exact Hrest.
Qed.

Lemma ipv4_injective_witness :
  firstn 4 (skipn 12 nibble0_packet) = buffer [10; 0; 0; 1]%N.
Proof.
  apply (ipv4_injective (firstn 4 (skipn 12 nibble0_packet))
           (buffer [10; 0; 0; 1]%N)).
  reflexivity.
Defined.

(** * Properties of [format_multi_line] *)

(** ** Cutting a text *)

Lemma take_drop (n : nat) (text : string) :
  (take n text ++ drop n text)%string = text.
Proof.
  revert text. induction n as [| n IH]; intros [| c text]; try reflexivity.
  cbn [take drop append]. rewrite IH. reflexivity.
Qed.

Lemma length_take (n : nat) (text : string) :
  String.length (take n text) = Nat.min n (String.length text).
Proof.
  revert text. induction n as [| n IH]; intros [| c text]; try reflexivity.
  cbn [take String.length]. rewrite IH. reflexivity.
Qed.

Lemma length_drop (n : nat) (text : string) :
  String.length (drop n text) = (String.length text - n)%nat.
Proof.
  revert text. induction n as [| n IH]; intros [| c text]; try reflexivity.
  cbn [drop String.length]. apply IH.
Qed.

Lemma concat_nosep_cons (piece : string) (pieces : list string) :
  String.concat EmptyString (piece :: pieces) =
    (piece ++ String.concat EmptyString pieces)%string.
Proof.
  destruct pieces as [| p pieces]; [| reflexivity].
  cbn [String.concat]. induction piece as [| c t IH]; [reflexivity |].
  cbn [append]. rewrite <- IH. reflexivity.
Qed.

(** With a positive width and enough fuel, the pieces are the text: joined
    they give it back, each has between 1 and [width] characters, all but
    the last have [width], and there are as many as the length needs. *)
Lemma wrap_chunks_spec (width : nat) :
  (0 < width)%nat ->
  forall fuel text,
    (String.length text <= fuel)%nat ->
    let pieces := wrap_chunks fuel width text in
    String.concat EmptyString pieces = text /\
    Forall (fun p => (1 <= String.length p <= width)%nat) pieces /\
    Forall (fun p => String.length p = width) (removelast pieces) /\
    (String.length text <= length pieces * width)%nat /\
    (length pieces * width < String.length text + width)%nat.
Proof.
  intros Hw. induction fuel as [| fuel IH]; intros text Hfuel.
  - destruct text; [| cbn in Hfuel; lia].
    cbn. repeat split; try constructor; lia.
  - destruct text as [| c text].
    { cbn. repeat split; try constructor; lia. }
    set (whole := String c text) in *.
    assert (Hpos : (1 <= String.length whole)%nat) by (cbn; lia).
    assert (Hrest : (String.length (drop width whole) <= fuel)%nat)
      by (rewrite length_drop; lia).
    specialize (IH (drop width whole) Hrest).
    cbn zeta in IH. destruct IH as (Hjoin & Hsizes & Hfull & Hlow & Hhigh).
    change (wrap_chunks (S fuel) width whole)
      with (take width whole :: wrap_chunks fuel width (drop width whole)).
    cbn zeta.
    pose proof (length_take width whole) as Htake.
    rewrite length_drop in Hlow, Hhigh.
    split; [rewrite concat_nosep_cons, Hjoin; apply take_drop |].
    split; [constructor; [lia | exact Hsizes] |].
    split.
    + destruct (wrap_chunks fuel width (drop width whole)) as [| p ps] eqn:E.
      * constructor.
      * change (removelast (take width whole :: p :: ps))
          with (take width whole :: removelast (p :: ps)).
        constructor; [| exact Hfull].
        rewrite Htake. cbn [length] in Hhigh.
        rewrite Nat.mul_succ_l in Hhigh.
        destruct (Nat.le_gt_cases width (String.length whole));
          [apply Nat.min_l; assumption | lia].
    + cbn [length]. rewrite Nat.mul_succ_l.
      destruct (Nat.le_gt_cases width (String.length whole)) as [Hge | Hlt];
        [lia |].
      assert (Hnone :
                length (wrap_chunks fuel width (drop width whole)) = 0%nat)
        by nia.
      rewrite Hnone. lia.
Qed.

Lemma escaped_cons (b : byte) (rest : bytes) :
  escaped (b :: rest) = (hex_escape b ++ escaped rest)%string.
Proof. unfold escaped. cbn [map]. apply concat_nosep_cons. Qed.

(** Four characters for each byte. *)
Lemma length_escaped (data : bytes) :
  String.length (escaped data) = (4 * length data)%nat.
Proof.
  induction data as [| b data IH]; [reflexivity |].
  rewrite escaped_cons, length_append, IH. cbn [length]. cbn. lia.
Qed.

Lemma wrap_width_even (prefix : string) (size : Z) :
  wrap_width prefix size mod 2 = 0 /\
  wrap_width prefix size <= size - Z.of_nat (String.length prefix) /\
  size - Z.of_nat (String.length prefix) - 1 <= wrap_width prefix size.
Proof.
  unfold wrap_width.
  set (room := size - Z.of_nat (String.length prefix)).
  pose proof (Z.mod_pos_bound room 2 eq_refl) as Hm.
  pose proof (Z.div_mod room 2) as Hdm.
  destruct (Z.eqb_spec (room mod 2) 0) as [H0 | H1].
  - split; [exact H0 | lia].
  - split; [| lia].
    replace (room - 1) with (0 + room / 2 * 2) by lia.
    rewrite Z.mod_add by lia. reflexivity.
Qed.

(** ** The width and the exception *)

(** X15. On a [bytes] argument [format_multi_line] raises nothing but
    [ValueError], and raises it exactly when [size] leaves at most one
    column after the prefix (the width is made even, so one column
    becomes none), whatever the bytes, even when there are none; with at
    least two columns left it returns. *)
Theorem format_multi_line_width (prefix : string) (data : bytes) (size : Z) :
  match format_multi_line prefix data size with
  | OK _ => 2 <= size - Z.of_nat (String.length prefix)
  | Raise e => e = ValueError /\ size - Z.of_nat (String.length prefix) <= 1
  end.
Proof.
  unfold format_multi_line, format_lines, wrap.
  destruct (wrap_width_even prefix size) as (Heven & Hle & Hge).
  pose proof (Z.div_mod (wrap_width prefix size) 2) as Hdm.
  destruct (Z.leb_spec (wrap_width prefix size) 0) as [Hbad | Hgood];
    cbn [bind]; [split; [reflexivity | lia] | lia].
Qed.

Lemma format_lines_raises (prefix : string) (data : bytes) (size : Z) :
  size - Z.of_nat (String.length prefix) <= 1 ->
  format_lines prefix data size = Raise ValueError.
Proof.
  intros Hroom. destruct (wrap_width_even prefix size) as (Heven & Hle & _).
  pose proof (Z.div_mod (wrap_width prefix size) 2) as Hdm.
  unfold format_lines, wrap.
  destruct (Z.leb_spec (wrap_width prefix size) 0); [reflexivity | lia].
Qed.

Lemma format_lines_returns (prefix : string) (data : bytes) (size : Z) :
  2 <= size - Z.of_nat (String.length prefix) ->
  0 < wrap_width prefix size /\
  format_lines prefix data size =
    OK (map (fun line => prefix ++ line)%string
          (wrap_chunks (String.length (escaped data))
             (Z.to_nat (wrap_width prefix size)) (escaped data))).
Proof.
  intros Hroom. destruct (wrap_width_even prefix size) as (_ & _ & Hge).
  assert (Hpos : 0 < wrap_width prefix size) by lia.
  split; [exact Hpos |].
  unfold format_lines, wrap.
  destruct (Z.leb_spec (wrap_width prefix size) 0); [lia | reflexivity].
Qed.

(** ** The lines *)

(** X16. When [format_lines] returns, every line is the prefix followed by
    a piece of the escaped bytes (4 characters a byte); the pieces, in
    order, make up the escaped bytes, so no byte is dropped or repeated;
    every piece but the last has exactly the wrap width, the last has
    between 1 and the width, and the number of lines is the least that
    holds the 4n characters.  [format_multi_line] joins these lines with
    newlines. *)
Theorem format_lines_pieces (prefix : string) (data : bytes) (size : Z)
  (lines : list string) :
  format_lines prefix data size = OK lines ->
  exists pieces,
    lines = map (fun line => prefix ++ line)%string pieces /\
    String.concat EmptyString pieces = escaped data /\
    Forall (fun p => 1 <= Z.of_nat (String.length p) <= wrap_width prefix size)
      pieces /\
    Forall (fun p => Z.of_nat (String.length p) = wrap_width prefix size)
      (removelast pieces) /\
    4 * Z.of_nat (length data)
      <= Z.of_nat (length lines) * wrap_width prefix size
      < 4 * Z.of_nat (length data) + wrap_width prefix size /\
    format_multi_line prefix data size = OK (String.concat newline lines).
Proof.
  intros Hret.
  assert (Hroom : 2 <= size - Z.of_nat (String.length prefix)).
  { destruct (Z.le_gt_cases 2 (size - Z.of_nat (String.length prefix)))
      as [Hge | Hlt]; [exact Hge |].
    rewrite format_lines_raises in Hret by lia. discriminate Hret. }
  destruct (format_lines_returns prefix data size Hroom) as [Hpos Hlines].
  rewrite Hlines in Hret. injection Hret as <-.
  assert (Hw : (0 < Z.to_nat (wrap_width prefix size))%nat) by lia.
  destruct (wrap_chunks_spec _ Hw (String.length (escaped data))
              (escaped data) (le_n _))
    as (Hjoin & Hsizes & Hfull & Hlow & Hhigh).
  set (pieces := wrap_chunks (String.length (escaped data))
                   (Z.to_nat (wrap_width prefix size)) (escaped data)) in *.
  exists pieces. split; [reflexivity |]. split; [exact Hjoin |].
  split; [eapply Forall_impl; [| exact Hsizes]; cbn beta; intros; lia |].
  split; [eapply Forall_impl; [| exact Hfull]; cbn beta; intros; lia |].
  split.
  - rewrite length_map. rewrite length_escaped in Hlow, Hhigh. nia.
  - unfold format_multi_line. rewrite Hlines. reflexivity.
Qed.

Lemma format_lines_pieces_witness :
  exists pieces,
    [("Data: " ++ "\x01\x")%string; ("Data: " ++ "02\xff")%string] =
      map (fun line => "Data: " ++ line)%string pieces /\
    String.concat EmptyString pieces = escaped (buffer [1; 2; 255]%N) /\
    Forall (fun p => 1 <= Z.of_nat (String.length p) <= wrap_width "Data: " 12)
      pieces /\
    Forall (fun p => Z.of_nat (String.length p) = wrap_width "Data: " 12)
      (removelast pieces) /\
    4 * Z.of_nat (length (buffer [1; 2; 255]%N))
      <= Z.of_nat 2 * wrap_width "Data: " 12
      < 4 * Z.of_nat (length (buffer [1; 2; 255]%N)) + wrap_width "Data: " 12 /\
    format_multi_line "Data: " (buffer [1; 2; 255]%N) 12 =
      OK (String.concat newline
            [("Data: " ++ "\x01\x")%string; ("Data: " ++ "02\xff")%string]).
Proof.
  apply (format_lines_pieces "Data: " (buffer [1; 2; 255]%N) 12
           [("Data: " ++ "\x01\x")%string; ("Data: " ++ "02\xff")%string]).
  reflexivity.
Defined.

Lemma append_assoc (a b c : string) :
  ((a ++ b) ++ c)%string = (a ++ (b ++ c))%string.
Proof.
  induction a as [| x a IH]; [reflexivity |].
  cbn [append]. rewrite IH. reflexivity.
Qed.

Lemma concat_starts_with_first (sep first : string) (others : list string) :
  exists tail,
    String.concat sep (first :: others) = (first ++ tail)%string.
Proof.
  destruct others as [| second others].
  - exists EmptyString. cbn [String.concat].
    induction first as [| c t IH]; [reflexivity |].
    cbn [append]. rewrite <- IH. reflexivity.
  - eexists. reflexivity.
Qed.

(** X17. With room for the width, [format_multi_line] of no bytes is the
    empty text: [wrap] gives no line, so not even the prefix is written.
    For one byte or more the text starts with the prefix. *)
Theorem format_multi_line_empty_payload (prefix : string) (size : Z) :
  2 <= size - Z.of_nat (String.length prefix) ->
  format_multi_line prefix [] size = OK EmptyString /\
  forall b rest,
    exists tail,
      format_multi_line prefix (b :: rest) size = OK (prefix ++ tail)%string.
Proof.
  intros Hroom. split.
  - unfold format_multi_line.
    rewrite (proj2 (format_lines_returns prefix [] size Hroom)). reflexivity.
  - intros b rest. unfold format_multi_line.
    destruct (format_lines_returns prefix (b :: rest) size Hroom)
      as [Hpos ->].
    cbn [bind].
    pose proof (length_escaped (b :: rest)) as Hlen.
    destruct (escaped (b :: rest)) as [| c text]; [discriminate Hlen |].
    cbn [String.length wrap_chunks map].
    match goal with
    | |- context [String.concat newline (?first :: ?others)] =>
        destruct (concat_starts_with_first newline first others)
          as [tail ->]
    end.
    rewrite append_assoc. eexists. reflexivity.
Qed.

Lemma format_multi_line_empty_payload_witness :
  format_multi_line transport_data_prefix [] 80 = OK EmptyString /\
  exists tail,
    format_multi_line transport_data_prefix [xff] 80 =
      OK (transport_data_prefix ++ tail)%string.
Proof.
  destruct (format_multi_line_empty_payload transport_data_prefix 80)
    as [Hempty Hsome]; [vm_compute; discriminate |].
  split; [exact Hempty | apply Hsome].
Defined.

(** ** The calls in [main] *)

Lemma wrap_chunks_one_line (fuel width : nat) (text : string) :
  (1 <= String.length text <= width)%nat ->
  wrap_chunks (S fuel) width text = [text].
Proof.
  intros [Hpos Hfit]. destruct text as [| c text]; [cbn in Hpos; lia |].
  cbn [wrap_chunks].
  assert (Htake : take width (String c text) = String c text).
  { revert Hfit. generalize (String c text). clear.
    induction width as [| w IH]; intros [| c t] H; try reflexivity.
    - cbn in H. lia.
    - cbn [take]. rewrite IH; [reflexivity | cbn in H; lia]. }
  assert (Hdrop : drop width (String c text) = EmptyString).
  { revert Hfit. generalize (String c text). clear.
    induction width as [| w IH]; intros [| c t] H; try reflexivity.
    - cbn in H. lia.
    - cbn [drop]. apply IH. cbn in H. lia. }
  rewrite Htake, Hdrop. destruct fuel; reflexivity.
Qed.

(** X18. The two calls of [format_multi_line] in [main] (prefixes of 18 and
    14 characters, [size] 80) never raise; they wrap at 62 and 66
    characters.  Up to 15 bytes the transport payload is written on one
    line.  Neither width is a multiple of the 4 characters of an escape,
    so the first line of a longer payload ends inside an escape: after 15
    (16 for the other-protocol call) whole escapes it ends with the
    backslash and the x of the next byte, whose two digits start the
    second line. *)
Theorem main_data_lines (data : bytes) :
  wrap_width transport_data_prefix 80 = 62 /\
  wrap_width other_data_prefix 80 = 66 /\
  (exists text, format_multi_line transport_data_prefix data 80 = OK text) /\
  (exists text, format_multi_line other_data_prefix data 80 = OK text) /\
  ((1 <= length data <= 15)%nat ->
   format_multi_line transport_data_prefix data 80 =
     OK (transport_data_prefix ++ escaped data)%string) /\
  ((16 <= length data)%nat ->
   exists others,
     format_lines transport_data_prefix data 80 =
       OK ((transport_data_prefix ++ escaped (firstn 15 data) ++ "\x")%string
           :: others)) /\
  ((17 <= length data)%nat ->
   exists others,
     format_lines other_data_prefix data 80 =
       OK ((other_data_prefix ++ escaped (firstn 16 data) ++ "\x")%string
           :: others)).
Proof.
  assert (Ht : 2 <= 80 - Z.of_nat (String.length transport_data_prefix))
    by (vm_compute; discriminate).
  assert (Ho : 2 <= 80 - Z.of_nat (String.length other_data_prefix))
    by (vm_compute; discriminate).
  destruct (format_lines_returns transport_data_prefix data 80 Ht)
    as [_ Htl].
  destruct (format_lines_returns other_data_prefix data 80 Ho) as [_ Hol].
  change (wrap_width transport_data_prefix 80) with 62 in Htl.
  change (wrap_width other_data_prefix 80) with 66 in Hol.
  split; [reflexivity |]. split; [reflexivity |].
  split; [unfold format_multi_line; rewrite Htl; eexists; reflexivity |].
  split; [unfold format_multi_line; rewrite Hol; eexists; reflexivity |].
  split; [| split].
  - intros Hlen. unfold format_multi_line. rewrite Htl. cbn [bind].
    pose proof (length_escaped data) as Hl.
    destruct (String.length (escaped data)) as [| fuel] eqn:E; [lia |].
    rewrite wrap_chunks_one_line
      by (rewrite E; change (Z.to_nat 62) with 62%nat; lia).
    reflexivity.
  - intros Hlen. rewrite Htl. open_buffer data Hlen.
    rewrite length_escaped. rewrite !escaped_cons.
    eexists. reflexivity.
  - intros Hlen. rewrite Hol. open_buffer data Hlen.
    rewrite length_escaped. rewrite !escaped_cons.
    eexists. reflexivity.
Qed.

Lemma main_data_lines_witness :
  format_multi_line transport_data_prefix (buffer [1; 2; 255]%N) 80 =
    OK (transport_data_prefix ++ "\x01\x02\xff")%string /\
  (exists others,
     format_lines transport_data_prefix (repeat xab 17) 80 =
       OK ((transport_data_prefix ++ escaped (repeat xab 15) ++ "\x")%string
           :: others)) /\
  exists others,
    format_lines other_data_prefix (repeat xab 17) 80 =
      OK ((other_data_prefix ++ escaped (repeat xab 16) ++ "\x")%string
          :: others).
Proof.
  destruct (main_data_lines (buffer [1; 2; 255]%N))
    as (_ & _ & _ & _ & Hone & _ & _).
  destruct (main_data_lines (repeat xab 17))
    as (_ & _ & _ & _ & _ & Htwo & Hother).
  split; [apply Hone; vm_compute; lia |].
  split; [apply Htwo; vm_compute; lia | apply Hother; vm_compute; lia].
Defined.

(** * The payload in terms of the frame *)

(** X19. The decoders compose by offsets into the received frame: the
    bytes handed to the transport decoder start at offset 14 plus the IPv4
    header length, and the payload finally printed starts 4 bytes further
    for ICMP, 8 for UDP, and the TCP data offset further for TCP; each is
    the frame from that offset on (nothing when the offset is beyond the
    frame). *)
Theorem payload_offsets_compose (host : byte_order) (raw : bytes)
  (dest_mac src_mac : string) (eth_proto : Z) (ip : bytes)
  (version header_length ttl proto : Z) (src target : string) (data : bytes) :
  ethernet_frame host raw = OK (dest_mac, src_mac, eth_proto, ip) ->
  ipv4_packet ip =
    OK (version, header_length, ttl, proto, src, target, data) ->
  data = skipn (14 + Z.to_nat header_length) raw /\
  (forall icmp_type code checksum payload,
     icmp_packet data = OK (icmp_type, code, checksum, payload) ->
     payload = skipn (14 + Z.to_nat header_length + 4) raw) /\
  (forall src_port dest_port size payload,
     udp_segment data = OK (src_port, dest_port, size, payload) ->
     payload = skipn (14 + Z.to_nat header_length + 8) raw) /\
  (forall src_port dest_port sequence acknowledgment flags payload,
     tcp_segment data =
       OK (src_port, dest_port, sequence, acknowledgment, flags, payload) ->
     payload =
       skipn (14 + Z.to_nat header_length + Z.to_nat (tcp_data_offset data))
         raw).
Proof.
  intros Heth Hip.
  apply ethernet_frame_returns in Heth as (_ & _ & ->).
  apply ipv4_packet_payload in Hip as (_ & Hdata).
  rewrite skipn_skipn in Hdata.
  assert (Hd : data = skipn (14 + Z.to_nat header_length) raw)
    by (rewrite Hdata; f_equal; lia).
  split; [exact Hd |]. split; [| split].
  - intros icmp_type code checksum payload Hret.
    pose proof (icmp_packet_returns_long_enough _ _ Hret) as Hlen.
    destruct (icmp_packet_ok data Hlen) as (? & ? & _ & _ & Hok).
    rewrite Hok in Hret. injection Hret as _ _ _ <-.
    change (skipn 4 data = skipn (14 + Z.to_nat header_length + 4) raw).
    rewrite Hd at 1. rewrite skipn_skipn. f_equal. lia.
  - intros src_port dest_port size payload Hret.
    pose proof (udp_segment_returns_long_enough _ _ Hret) as Hlen.
    rewrite udp_segment_ok in Hret by exact Hlen.
    injection Hret as _ _ _ <-.
    change (skipn 8 data = skipn (14 + Z.to_nat header_length + 8) raw).
    rewrite Hd at 1. rewrite skipn_skipn. f_equal. lia.
  - intros src_port dest_port sequence acknowledgment flags payload Hret.
    pose proof (tcp_segment_returns_long_enough _ _ Hret) as Hlen.
    rewrite (tcp_segment_all_fields data Hlen) in Hret.
    injection Hret as _ _ _ _ _ <-.
    rewrite Hd at 2. rewrite skipn_skipn. f_equal. lia.
Qed.

Lemma payload_offsets_compose_witness :
  skipn 34 tcp_syn_frame = skipn (14 + Z.to_nat 20) tcp_syn_frame /\
  [] = skipn (14 + Z.to_nat 20
              + Z.to_nat (tcp_data_offset (skipn 34 tcp_syn_frame)))
         tcp_syn_frame.
Proof.
  destruct (payload_offsets_compose LittleEndian tcp_syn_frame
              "FF:FF:FF:FF:FF:FF"%string "00:11:22:33:44:55"%string 8
              (skipn 14 tcp_syn_frame) 4 20 64 6
              "10.0.0.1"%string "10.0.0.2"%string (skipn 34 tcp_syn_frame))
    as (Hdata & _ & _ & Htcp); [reflexivity | reflexivity |].
  split; [exact Hdata |].
  apply (Htcp 80 443 1 0 (tcp_flags 20482)). reflexivity.
Defined.
